(** * Invoicing-System: the model adapter (invoice_parser.py) and the HTTP
    endpoint (api.py), embedded as Rocq functions.

    Python objects are an inductive type, exceptions are values of an
    inductive type carried by an outcome, and the only effect the two files
    have on the outside (the generative-model service) is threaded as
    explicit state.  Calls to [logging] write to the server log only and
    are left out: no value computed by either file depends on them. *)

From Stdlib Require Import String Ascii List ZArith NArith Bool Lia.
From Stdlib Require Import Floats.SpecFloat.
From Stdlib Require Import DecimalString.
Import ListNotations.
Local Open Scope string_scope.
Local Open Scope Z_scope.

Set Implicit Arguments.

(** ** Python values *)

Module Py.

(** The objects that [json_repair.loads] can build and that the endpoint
    can return: [None], [bool], [int], [float] (binary64), [str], [list]
    and [dict] (an association list in insertion order). *)
#[local] Unset Elimination Schemes.
Inductive value : Type :=
| PyNone
| PyBool (b : bool)
| PyInt (z : Z)
| PyFloat (f : spec_float)
| PyStr (s : string)
| PyList (items : list value)
| PyDict (entries : list (string * value)).
#[local] Set Elimination Schemes.

(** [bool(v)], the test behind [if not v]. *)
Definition truthy (v : value) : bool :=
  match v with
  | PyNone => false
  | PyBool b => b
  | PyInt z => negb (z =? 0)
  | PyFloat (S754_zero _) => false
  | PyFloat _ => true
  | PyStr EmptyString => false
  | PyStr _ => true
  | PyList [] => false
  | PyList _ => true
  | PyDict [] => false
  | PyDict _ => true
  end.

(** Instances of Python's [Exception] class, the ones an [except Exception]
    clause catches.  [HTTPException] is FastAPI's (a subclass of
    Starlette's, itself a subclass of [Exception]). *)
Inductive exception : Type :=
| HTTPException (status_code : Z) (detail : string)
| ValueError (msg : string)
| TypeError (msg : string)
| IndexError (msg : string)
| binascii_Error (msg : string)
| OtherException (cls : string) (msg : string).

(** What evaluating an expression or a call gives. *)
Inductive outcome (A : Type) : Type :=
| Returned (a : A)
| Raised (e : exception).
Arguments Returned {A} a.
Arguments Raised {A} e.

Definition is_raised {A} (o : outcome A) : bool :=
  match o with Raised _ => true | Returned _ => false end.

Definition obind {A B} (o : outcome A) (k : A -> outcome B) : outcome B :=
  match o with
  | Returned a => k a
  | Raised e => Raised e
  end.

(** A list comprehension [[f x for x in xs]]: elements are evaluated from
    left to right and the first exception ends the comprehension. *)
Fixpoint comprehension {A B} (f : A -> outcome B) (xs : list A)
  : outcome (list B) :=
  match xs with
  | [] => Returned []
  | x :: rest =>
      obind (f x) (fun y =>
      obind (comprehension f rest) (fun ys => Returned (y :: ys)))
  end.

(** [sep in s] for a one-character [sep]. *)
Fixpoint contains (sep : ascii) (s : string) : bool :=
  match s with
  | EmptyString => false
  | String c rest => Ascii.eqb c sep || contains sep rest
  end.

(** [s.split(sep)] for a one-character [sep]: the pieces between
    separators, empty pieces included. *)
Fixpoint split (sep : ascii) (s : string) : list string :=
  match s with
  | EmptyString => [EmptyString]
  | String c rest =>
      if Ascii.eqb c sep then EmptyString :: split sep rest
      else match split sep rest with
           | piece :: pieces => String c piece :: pieces
           | [] => [String c EmptyString]
           end
  end.

(** [xs[-1]]. *)
Fixpoint subscript_last {A} (xs : list A) : outcome A :=
  match xs with
  | [] => Raised (IndexError "list index out of range")
  | [x] => Returned x
  | _ :: rest => subscript_last rest
  end.

(** [sep.join(pieces)]. *)
Fixpoint join (sep : string) (pieces : list string) : string :=
  match pieces with
  | [] => EmptyString
  | [p] => p
  | p :: rest => p ++ sep ++ join sep rest
  end.

(** [len(s)] of a [str] held as its UTF-8 bytes: the bytes that are not
    continuation bytes (10xxxxxx). *)
Fixpoint len (s : string) : nat :=
  match s with
  | EmptyString => O
  | String c rest =>
      let n := N_of_ascii c in
      if (N.leb 128 n && N.ltb n 192)%N then len rest else S (len rest)
  end.

(** The binary64 value nearest to [m * 10^e] (ties to even), which is what
    a decimal literal such as [0.2] denotes.  For a negative [e] the
    quotient is computed with 64 extra bits and a sticky last bit, so the
    single rounding of [binary_normalize] is the correct one. *)
Definition float_of_decimal (m e : Z) : spec_float :=
  if 0 <=? e then binary_normalize 53 1024 (m * 10 ^ e) 0 false
  else
    let d := 10 ^ (- e) in
    let s := Z.log2 d + 64 in
    let n := Z.abs m * 2 ^ s in
    let sticky := if n mod d =? 0 then 0 else 1 in
    let q := Z.lor (n / d) sticky in
    binary_normalize 53 1024 (if m <? 0 then - q else q) (- s) false.

(** [d.get(key)] on a [dict]. *)
Fixpoint dict_get (key : string) (entries : list (string * value))
  : option value :=
  match entries with
  | [] => None
  | (k, v) :: rest => if String.eqb k key then Some v else dict_get key rest
  end.

End Py.
Import Py.

(** ** Pydantic models (invoice_parser.py, lines 25-69) *)

Module Pydantic.

(** A field annotation with the constraints its [Field(...)] carries. *)
#[local] Unset Elimination Schemes.
Inductive annotation : Type :=
| Str (min_length max_length : option nat)
| Float
| Int
| Optional (a : annotation)
| ListOf (a : annotation)
| BaseModel (fields : list (string * annotation * bool)).
#[local] Set Elimination Schemes.
(** In [BaseModel] a field is its name, its annotation and whether it is
    required ([Field(...)] with the ellipsis) or has a default. *)

Definition in_bounds (lo hi : option nat) (n : nat) : bool :=
  match lo with Some l => Nat.leb l n | None => true end
  && match hi with Some h => Nat.leb n h | None => true end.

(** A value matches an annotation: the field names, the types and the
    length bounds.  An [int] is accepted where a [float] is declared;
    keys that the model does not declare are ignored. *)
Fixpoint matches (a : annotation) (v : value) {struct a} : bool :=
  match a with
  | Str lo hi =>
      match v with PyStr s => in_bounds lo hi (len s) | _ => false end
  | Float =>
      match v with PyFloat _ | PyInt _ => true | _ => false end
  | Int =>
      match v with PyInt _ => true | _ => false end
  | Optional a' =>
      match v with PyNone => true | _ => matches a' v end
  | ListOf a' =>
      match v with PyList items => forallb (matches a') items | _ => false end
  | BaseModel fields =>
      match v with
      | PyDict entries =>
          (fix all_fields (fs : list (string * annotation * bool)) : bool :=
             match fs with
             | [] => true
             | (name, a', required) :: fs' =>
                 match dict_get name entries with
                 | Some v' => matches a' v'
                 | None => negb required
                 end && all_fields fs'
             end) fields
      | _ => false
      end
  end.

End Pydantic.

Definition Product : Pydantic.annotation :=
  Pydantic.BaseModel
    [ ("Item_ID", Pydantic.Str (Some 5%nat) (Some 12%nat), true);
      ("Item_Description", Pydantic.Str (Some 5%nat) None, true);
      ("Unit_Price", Pydantic.Float, true);
      ("Quantity", Pydantic.Int, true);
      ("Tax", Pydantic.Float, true);
      ("Total_Amount", Pydantic.Float, true) ].

Definition InvoiceData : Pydantic.annotation :=
  Pydantic.BaseModel
    [ ("date",
       Pydantic.Optional (Pydantic.Str (Some 8%nat) (Some 10%nat)), true);
      ("products", Pydantic.ListOf Product, false) ].

Definition InvoiceResponse : Pydantic.annotation :=
  Pydantic.BaseModel [ ("data", InvoiceData, true) ].

(** ** The google-genai request and response objects the adapter builds *)

Module genai.

Inductive Part : Type :=
| from_bytes (mime_type : string) (data : list Byte.byte)
| from_text (text : string).

Record Content : Type := { role : string; parts : list Part }.

Record ThinkingConfig : Type := { thinking_budget : Z }.

Record GenerateContentConfig : Type := {
  temperature : spec_float;
  thinking_config : ThinkingConfig;
  response_mime_type : string;
  response_schema : Pydantic.annotation;
  system_instruction : list Part
}.

(** The arguments of one [client.models.generate_content] call. *)
Record GenerateContentRequest : Type := {
  model : string;
  contents : list Content;
  config : GenerateContentConfig
}.

(** [response.text] is [None] when the reply carries no text part. *)
Record GenerateContentResponse : Type := { text : option string }.

Record Client : Type := { client_api_key : string }.

End genai.

(** ** The outside world

    What invoice_parser.py imports and calls: the process environment,
    the standard library's base64 decoder, the json_repair package and the
    google-genai client.  The generative-model service has a state of its
    own, of type [W], which a call may read and change. *)

Record Environment (W : Type) : Type := {
  os_environ_get : string -> option string;
  base64_b64decode : string -> outcome (list Byte.byte);
  json_repair_loads : string -> outcome value;
  genai_Client : string -> outcome genai.Client;
  models_generate_content :
    genai.Client -> genai.GenerateContentRequest -> W ->
    outcome genai.GenerateContentResponse * W
}.

(** A call that left the process, kept for the record (latest first). *)
Inductive external_call : Type :=
| ClientCreated (key : string)
| ContentRequested (rq : genai.GenerateContentRequest).

Record state (W : Type) : Type := {
  service : W;
  calls : list external_call
}.

(** Computations: they may raise, and they may talk to the service. *)
Definition M (W A : Type) : Type := state W -> outcome A * state W.

Definition ret {W A} (a : A) : M W A := fun st => (Returned a, st).

Definition raise {W A} (e : exception) : M W A := fun st => (Raised e, st).

Definition lift {W A} (o : outcome A) : M W A := fun st => (o, st).

Definition bind {W A B} (c : M W A) (k : A -> M W B) : M W B :=
  fun st =>
    match c st with
    | (Returned a, st') => k a st'
    | (Raised e, st') => (Raised e, st')
    end.

(** [try: body / except Exception as e: handler]. *)
Definition try_except {W A} (body : M W A) (handler : exception -> M W A)
  : M W A :=
  fun st =>
    match body st with
    | (Returned a, st') => (Returned a, st')
    | (Raised e, st') => handler e st'
    end.

Notation "x <- c ;; k" := (bind c (fun x => k))
  (at level 61, c at next level, right associativity).

(** ** invoice_parser.py: class InvoiceParser *)

Record InvoiceParser : Type := {
  api_key : string;
  client : genai.Client;
  model : string
}.

Section Adapter.

Variable W : Type.
Variable env : Environment W.

Definition call_Client (key : string) : M W genai.Client :=
  fun st =>
    (genai_Client env key,
     {| service := service st; calls := ClientCreated key :: calls st |}).

Definition call_generate_content (c : genai.Client)
    (rq : genai.GenerateContentRequest) : M W genai.GenerateContentResponse :=
  fun st =>
    let (o, w) := models_generate_content env c rq (service st) in
    (o, {| service := w; calls := ContentRequested rq :: calls st |}).

(** [a or b] on optional strings: [a] when it is a non-empty string. *)
Definition py_or (a b : option string) : option string :=
  match a with
  | Some (String _ _) => a
  | _ => b
  end.

(** [InvoiceParser.__init__] (lines 73-86).  The keyword defaults are
    [api_key=None] and [model="gemini-2.5-flash"]. *)
Definition __init__ (api_key : option string) (model : string)
  : M W InvoiceParser :=
  match py_or api_key (os_environ_get env "GEMINI_API_KEY") with
  | Some (String c k) =>
      client <- try_except (call_Client (String c k)) (fun e => raise e) ;;
      ret {| api_key := String c k; client := client; model := model |}
  | _ => raise (ValueError "Gemini API key not provided")
  end.

(** [InvoiceParser.parse_json] (lines 88-94). *)
Definition parse_json (text : string) : value :=
  match json_repair_loads env text with
  | Returned v => v
  | Raised _ => PyNone
  end.

Definition newline : string := String (ascii_of_nat 10) EmptyString.

(** [InvoiceParser._system_message] (lines 97-107). *)
Definition _system_message : string :=
  join newline
    [ "You are a helpful assistant specialized in extracting structured data from images of Arabic VAT invoices.";
      "The user will provide an image of an invoice. Extract all data and combine into one JSON.";
      "Extract for each product: Item_ID, Item_Description, Unit_Price, Quantity, Tax, and Total_Amount.";
      "Also extract the invoice issue date (DD-MM-YYYY)";
      "Follow the exact Pydantic schema. Output JSON only — no extra text or explanation.";
      "If invoice is in Arabic, keep all Arabic text and digits as-is." ].

(** [InvoiceParser._user_prompt] (lines 110-113). *)
Definition _user_prompt : string := join newline [ EmptyString ].

(** [try: x = body / except Exception: return None], then [rest x]. *)
Definition try_or_return_None {A} (body : M W A) (rest : A -> M W value)
  : M W value :=
  fun st =>
    match body st with
    | (Returned a, st') => rest a st'
    | (Raised _, st') => (Returned PyNone, st')
    end.

(** Lines 121-126: the comprehension that decodes the images. *)
Definition decode_images (b64_images : list string)
  : outcome (list genai.Part) :=
  comprehension
    (fun img_b64 =>
       obind (base64_b64decode env img_b64) (fun data =>
       Returned (genai.from_bytes "image/jpeg" data)))
    b64_images.

(** Lines 142-150. *)
Definition generate_content_config : genai.GenerateContentConfig :=
  {| genai.temperature := float_of_decimal 2 (-1);
     genai.thinking_config := {| genai.thinking_budget := 0 |};
     genai.response_mime_type := "application/json";
     genai.response_schema := InvoiceResponse;
     genai.system_instruction := [ genai.from_text _system_message ] |}.

(** Lines 132-139 and 155-159: the user prompt is appended to the image
    parts, and the whole is sent as one user message. *)
Definition request_of (self : InvoiceParser) (parts : list genai.Part)
  : genai.GenerateContentRequest :=
  let parts := (parts ++ [ genai.from_text _user_prompt ])%list in
  let contents := [ {| genai.role := "user"; genai.parts := parts |} ] in
  {| genai.model := model self;
     genai.contents := contents;
     genai.config := generate_content_config |}.

(** [InvoiceParser.extract_invoice] (lines 116-179): three [try] blocks,
    each ending the call with [None] when something inside it raises.
    Lines 176-177 only write the result to the log. *)
Definition extract_invoice (self : InvoiceParser) (b64_images : list string)
  : M W value :=
  (* Decode base64-encoded images *)
  try_or_return_None (lift (decode_images b64_images)) (fun parts =>
  (* Make the API call *)
  try_or_return_None
    (call_generate_content (client self) (request_of self parts))
    (fun response =>
  (* Attempt to parse the response JSON; the first use of the text is
     [response.text[:300]], which raises TypeError when it is None *)
  try_or_return_None
    (lift
       match genai.text response with
       | None => Raised (TypeError "'NoneType' object is not subscriptable")
       | Some text => Returned (parse_json text)
       end)
    (fun json_response =>
  if negb (truthy json_response) then ret PyNone
  else ret json_response))).

End Adapter.

(** ** api.py *)

Record ImagesRequest : Type := { image : string }.

Definition comma : ascii := ","%char.

(** Line 19: [request.image.split(",")[-1] if "," in request.image else
    request.image]. *)
Definition b64_image_of (image : string) : outcome string :=
  if contains comma image then subscript_last (split comma image)
  else Returned image.

(** The body of the [try] of [process_invoice] (lines 22-25).  [parser]
    is the module-level [InvoiceParser] object, taken here through its
    [extract_invoice] method. *)
Definition processing_block {W}
    (parser_extract_invoice : list string -> M W value)
    (b64_image : string) : M W value :=
  invoice_data <- parser_extract_invoice [ b64_image ] ;;
  if negb (truthy invoice_data)
  then raise (HTTPException 500 "Invoice processing failed")
  else ret invoice_data.

(** [process_invoice] (lines 18-28). *)
Definition process_invoice {W}
    (parser_extract_invoice : list string -> M W value)
    (request : ImagesRequest) : M W value :=
  b64_image <- lift (b64_image_of (image request)) ;;
  try_except
    (processing_block parser_extract_invoice b64_image)
    (fun e => raise (HTTPException 500 "Internal server error")).

(** An HTTP response: the status and the JSON body. *)
Record Response : Type := { status : Z; body : value }.

Definition error_response (code : Z) (detail : string) : Response :=
  {| status := code; body := PyDict [ ("detail", PyStr detail) ] |}.

Definition server_error : Response :=
  {| status := 500; body := PyStr "Internal Server Error" |}.

(** The JSON encoder of the response refuses the floats that are not
    finite ([allow_nan=False]). *)
Fixpoint json_compliant (v : value) : bool :=
  match v with
  | PyFloat (S754_infinity _) | PyFloat S754_nan => false
  | PyList items => forallb json_compliant items
  | PyDict entries =>
      (fix all_values (es : list (string * value)) : bool :=
         match es with
         | [] => true
         | (_, v') :: es' => json_compliant v' && all_values es'
         end) entries
  | _ => true
  end.

(** What FastAPI sends for the outcome of a path operation: the returned
    object, encoded as JSON, with status 200; an [HTTPException] as its
    status and [{"detail": detail}]; anything else, a failure of the
    encoder included, as a plain 500. *)
Definition fastapi_response (o : outcome value) : Response :=
  match o with
  | Returned v =>
      if json_compliant v then {| status := 200; body := v |}
      else server_error
  | Raised (HTTPException code detail) => error_response code detail
  | Raised _ => server_error
  end.

(** One [POST /api/multiple-invoice]. *)
Definition post_multiple_invoice {W}
    (parser_extract_invoice : list string -> M W value)
    (request : ImagesRequest) (st : state W) : Response * state W :=
  let (o, st') := process_invoice parser_extract_invoice request st in
  (fastapi_response o, st').

(** Line 11 of api.py: [parser = InvoiceParser()]. *)
Definition startup {W} (env : Environment W) : M W InvoiceParser :=
  __init__ env None "gemini-2.5-flash".

(** ** Test doubles for the outside world *)

Module Stub.

(** *** base64.b64decode, as the standard library documents it

    Without [validate], characters outside the alphabet are skipped; a
    padding sign ends the data once the current group of four has two or
    three characters and enough signs; data that stops inside a group is
    an error.  A [str] argument must be ASCII. *)

Definition b64_digit (c : ascii) : option N :=
  let n := N_of_ascii c in
  (if (65 <=? n) && (n <=? 90) then Some (n - 65)
   else if (97 <=? n) && (n <=? 122) then Some (n - 71)
   else if (48 <=? n) && (n <=? 57) then Some (n + 4)
   else if n =? 43 then Some 62
   else if n =? 47 then Some 63
   else None)%N.

Definition byte_of_N (n : N) : Byte.byte :=
  match Byte.of_N n with Some b => b | None => Byte.x00 end.

Fixpoint a2b_base64 (s : string) (quad_pos : nat) (leftchar : N) (pads : nat)
    (out : list Byte.byte) : outcome (list Byte.byte) :=
  match s with
  | EmptyString =>
      match quad_pos with
      | O => Returned (rev out)
      | S O => Raised (binascii_Error "Invalid base64-encoded string")
      | _ => Raised (binascii_Error "Incorrect padding")
      end
  | String c rest =>
      if Ascii.eqb c "="%char then
        if Nat.leb 2 quad_pos then
          if Nat.leb 4 (quad_pos + S pads)%nat then Returned (rev out)
          else a2b_base64 rest quad_pos leftchar (S pads) out
        else a2b_base64 rest quad_pos leftchar pads out
      else
        match b64_digit c with
        | None => a2b_base64 rest quad_pos leftchar pads out
        | Some v =>
            match quad_pos with
            | O => a2b_base64 rest 1%nat v 0%nat out
            | S O =>
                a2b_base64 rest 2%nat (N.land v 15) 0%nat
                  (byte_of_N (N.lor (N.shiftl leftchar 2) (N.shiftr v 4))
                   :: out)
            | S (S O) =>
                a2b_base64 rest 3%nat (N.land v 3) 0%nat
                  (byte_of_N (N.lor (N.shiftl leftchar 4) (N.shiftr v 2))
                   :: out)
            | _ =>
                a2b_base64 rest 0%nat 0 0%nat
                  (byte_of_N (N.lor (N.shiftl leftchar 6) v) :: out)
            end
        end
  end%N.

Fixpoint isascii (s : string) : bool :=
  match s with
  | EmptyString => true
  | String c rest => (N_of_ascii c <? 128)%N && isascii rest
  end.

Definition b64decode (s : string) : outcome (list Byte.byte) :=
  if isascii s then a2b_base64 s 0%nat 0%N 0%nat []
  else Raised (ValueError "string argument should contain only ASCII characters").

(** *** json_repair.loads *)

Inductive token : Type :=
| LBrace | RBrace | LBracket | RBracket | Colon | Comma
| TStr (s : string)
| TWord (w : string).

Inductive lex_mode : Type :=
| Idle
| InStr (buf : list ascii) (escaped : bool)
| InWord (buf : list ascii).

Definition string_of_rev (buf : list ascii) : string :=
  fold_left (fun acc c => String c acc) buf EmptyString.

Definition is_space (c : ascii) : bool :=
  let n := N_of_ascii c in ((n =? 32) || (n =? 9) || (n =? 10) || (n =? 13))%N.

Definition punctuation (c : ascii) : option token :=
  if Ascii.eqb c "{" then Some LBrace
  else if Ascii.eqb c "}" then Some RBrace
  else if Ascii.eqb c "[" then Some LBracket
  else if Ascii.eqb c "]" then Some RBracket
  else if Ascii.eqb c ":" then Some Colon
  else if Ascii.eqb c "," then Some Comma
  else None.

Definition double_quote : ascii := ascii_of_nat 34.
Definition backslash : ascii := ascii_of_nat 92.

(** The character a one-letter escape stands for; any other escaped
    character stands for itself. *)
Definition unescape (c : ascii) : ascii :=
  if Ascii.eqb c "n" then ascii_of_nat 10
  else if Ascii.eqb c "t" then ascii_of_nat 9
  else if Ascii.eqb c "r" then ascii_of_nat 13
  else if Ascii.eqb c "b" then ascii_of_nat 8
  else if Ascii.eqb c "f" then ascii_of_nat 12
  else c.

(** Tokens in reverse order.  A string that the text leaves open is
    closed at the end of the text. *)
Fixpoint lex (s : string) (mode : lex_mode) (acc : list token) : list token :=
  match s with
  | EmptyString =>
      match mode with
      | Idle => acc
      | InStr buf _ => TStr (string_of_rev buf) :: acc
      | InWord buf => TWord (string_of_rev buf) :: acc
      end
  | String c rest =>
      match mode with
      | InStr buf true => lex rest (InStr (unescape c :: buf) false) acc
      | InStr buf false =>
          if Ascii.eqb c double_quote
          then lex rest Idle (TStr (string_of_rev buf) :: acc)
          else if Ascii.eqb c backslash then lex rest (InStr buf true) acc
          else lex rest (InStr (c :: buf) false) acc
      | Idle =>
          if is_space c then lex rest Idle acc
          else if Ascii.eqb c double_quote then lex rest (InStr [] false) acc
          else match punctuation c with
               | Some t => lex rest Idle (t :: acc)
               | None => lex rest (InWord [c]) acc
               end
      | InWord buf =>
          let acc' := TWord (string_of_rev buf) :: acc in
          if is_space c then lex rest Idle acc'
          else if Ascii.eqb c double_quote then lex rest (InStr [] false) acc'
          else match punctuation c with
               | Some t => lex rest Idle (t :: acc')
               | None => lex rest (InWord (c :: buf)) acc
               end
      end
  end.

(** Leading decimal digits of [s]: their value on top of [acc], how many
    there are, and the rest of [s]. *)
Fixpoint digits (s : string) (acc : Z) (n : nat) : Z * nat * string :=
  match s with
  | String c rest =>
      let d := N_of_ascii c in
      if ((48 <=? d) && (d <=? 57))%N
      then digits rest (10 * acc + Z.of_N (d - 48)) (S n)
      else (acc, n, s)
  | EmptyString => (acc, n, s)
  end.

Definition signed (s : string) : bool * string :=
  match s with
  | String c rest =>
      if Ascii.eqb c "-" then (true, rest)
      else if Ascii.eqb c "+" then (false, rest)
      else (false, s)
  | EmptyString => (false, s)
  end.

(** A JSON number: an [int] when it has neither fraction nor exponent, a
    [float] otherwise. *)
Definition number (w : string) : option value :=
  let (neg, s0) :=
    match w with
    | String c rest => if Ascii.eqb c "-" then (true, rest) else (false, w)
    | EmptyString => (false, w)
    end in
  let '(int_part, n_int, s1) := digits s0 0 0 in
  if Nat.eqb n_int 0 then None else
  let '(mantissa, n_frac, s2, has_frac) :=
    match s1 with
    | String c rest =>
        if Ascii.eqb c "." then
          let '(m, n, s) := digits rest int_part 0 in (m, n, s, true)
        else (int_part, O, s1, false)
    | EmptyString => (int_part, O, s1, false)
    end in
  if has_frac && Nat.eqb n_frac 0 then None else
  let '(exponent, exp_ok, s3, has_exp) :=
    match s2 with
    | String c rest =>
        if Ascii.eqb c "e" || Ascii.eqb c "E" then
          let (eneg, s) := signed rest in
          let '(e, n, s') := digits s 0 0 in
          (if eneg then - e else e, negb (Nat.eqb n 0), s', true)
        else (0, true, s2, false)
    | EmptyString => (0, true, s2, false)
    end in
  match s3 with
  | String _ _ => None
  | EmptyString =>
      if negb exp_ok then None
      else if has_frac || has_exp then
        Some (PyFloat
                (if mantissa =? 0 then S754_zero neg
                 else float_of_decimal (if neg then - mantissa else mantissa)
                                       (exponent - Z.of_nat n_frac)))
      else Some (PyInt (if neg then - int_part else int_part))
  end.

(** The value of a bare word, if it is one: a literal or a number. *)
Definition word_value (w : string) : option value :=
  if String.eqb w "true" then Some (PyBool true)
  else if String.eqb w "false" then Some (PyBool false)
  else if String.eqb w "null" then Some PyNone
  else number w.

(** [d[key] = v]: an existing key keeps its place. *)
Fixpoint dict_set (key : string) (v : value) (entries : list (string * value))
  : list (string * value) :=
  match entries with
  | [] => [ (key, v) ]
  | (k, v') :: rest =>
      if String.eqb k key then (key, v) :: rest
      else (k, v') :: dict_set key v rest
  end.

(** One value from the front of the tokens.  Commas between and after
    the elements of an array or the members of an object are skipped, so
    a trailing comma is tolerated, and an array or object that the text
    leaves open is closed at the end of the tokens. *)
Fixpoint parse_value (fuel : nat) (toks : list token)
  : option (value * list token) :=
  match fuel with
  | O => None
  | S fuel' =>
      match toks with
      | TStr s :: rest => Some (PyStr s, rest)
      | TWord w :: rest =>
          match word_value w with
          | Some v => Some (v, rest)
          | None => None
          end
      | LBracket :: rest => parse_items fuel' rest []
      | LBrace :: rest => parse_members fuel' rest []
      | _ => None
      end
  end
with parse_items (fuel : nat) (toks : list token) (acc : list value)
  : option (value * list token) :=
  match fuel with
  | O => None
  | S fuel' =>
      match toks with
      | [] => Some (PyList (rev acc), [])
      | RBracket :: rest => Some (PyList (rev acc), rest)
      | Comma :: rest => parse_items fuel' rest acc
      | _ =>
          match parse_value fuel' toks with
          | Some (v, rest) => parse_items fuel' rest (v :: acc)
          | None => None
          end
      end
  end
with parse_members (fuel : nat) (toks : list token)
    (acc : list (string * value)) : option (value * list token) :=
  match fuel with
  | O => None
  | S fuel' =>
      match toks with
      | [] => Some (PyDict acc, [])
      | RBrace :: rest => Some (PyDict acc, rest)
      | Comma :: rest => parse_members fuel' rest acc
      | TStr key :: Colon :: rest =>
          match parse_value fuel' rest with
          | Some (v, rest') => parse_members fuel' rest' (dict_set key v acc)
          | None => None
          end
      | _ => None
      end
  end.

(** Stray text is a bare word that is neither a literal nor a number. *)
Definition is_stray (t : token) : bool :=
  match t with
  | TWord w => match word_value w with Some _ => false | None => true end
  | _ => false
  end.

(** Tokens that cannot start a value are stray when they come first. *)
Fixpoint skip_to_value (toks : list token) : list token :=
  match toks with
  | (RBrace | RBracket | Colon | Comma) :: rest => skip_to_value rest
  | _ => toks
  end.

(** Modelled from the spec: [json_repair.loads], from the json_repair
    package, which invoice_parser.py imports and the repository does not
    contain.  The spec describes it as a lenient JSON-repair pass that
    tolerates near-valid JSON (trailing commas, stray text) and that may
    yield nothing usable: here stray words and leading punctuation are
    dropped, the first value of the text is parsed with trailing commas
    tolerated, text after it is ignored, and a text with no value in it
    gives the empty string. *)
Definition loads (text : string) : outcome value :=
  let toks :=
    skip_to_value
      (filter (fun t => negb (is_stray t)) (rev (lex text Idle []))) in
  match parse_value (S (2 * length toks)) toks with
  | Some (v, _) => Returned v
  | None => Returned (PyStr EmptyString)
  end.


(** *** The environment of a test run *)

Definition quoted (s : string) : string :=
  String double_quote (s ++ String double_quote EmptyString).

Definition environ_with_key (name : string) : option string :=
  if String.eqb name "GEMINI_API_KEY" then Some "test-key" else None.

Definition environ_without_key (name : string) : option string := None.

(** A model service that counts the requests it has served and answers
    the request [rq], the [n]-th one, with [reply n rq]. *)
Definition env (environ : string -> option string)
    (reply : nat -> genai.GenerateContentRequest ->
             outcome genai.GenerateContentResponse)
  : Environment nat :=
  {| os_environ_get := environ;
     base64_b64decode := b64decode;
     json_repair_loads := loads;
     genai_Client := fun key => Returned {| genai.client_api_key := key |};
     models_generate_content :=
       fun _ rq served => (reply served rq, S served) |}.

(** A deterministic model: the same text whatever the request. *)
Definition says (text : string) (served : nat)
    (rq : genai.GenerateContentRequest)
  : outcome genai.GenerateContentResponse :=
  Returned {| genai.text := Some text |}.

(** A model whose reply changes from one call to the next. *)
Definition alternates (text1 text2 : string) (served : nat)
    (rq : genai.GenerateContentRequest)
  : outcome genai.GenerateContentResponse :=
  Returned {| genai.text := Some (if Nat.even served then text1 else text2) |}.

Definition boot : state nat := {| service := O; calls := [] |}.

(** The object that [InvoiceParser()] builds with the key above. *)
Definition parser : InvoiceParser :=
  {| api_key := "test-key";
     client := {| genai.client_api_key := "test-key" |};
     model := "gemini-2.5-flash" |}.

(** An adapter that raises instead of returning. *)
Definition crashing_parser (b64_images : list string) : M nat value :=
  raise (OtherException "RuntimeError" "secret: key=test-key").

Definition trailing_comma_reply : string :=
  "{" ++ quoted "date" ++ ":" ++ quoted "01-01-2024" ++ ","
      ++ quoted "products" ++ ":[],}".

Definition strict_reply : string :=
  "{" ++ quoted "date" ++ ":" ++ quoted "01-01-2024" ++ ","
      ++ quoted "products" ++ ":[]}".


(** A reply that matches the schema. *)
Definition wrapped_reply : string :=
  "{" ++ quoted "data" ++ ":" ++ strict_reply ++ "}".

(** The environment of most runs below: the key is set and the model
    answers [text]. *)
Definition answering (text : string) : Environment nat :=
  env environ_with_key (says text).

(** The state after one request for the image [AAAA] (three zero bytes). *)
Definition served_once : state nat :=
  {| service := 1%nat;
     calls :=
       [ ContentRequested
           (request_of parser
              [ genai.from_bytes "image/jpeg"
                  [ Byte.x00; Byte.x00; Byte.x00 ] ]) ] |}.

End Stub.

(** ** streamlit_app.py, the client of the endpoint *)

(** *** What the script uses of Python and of the requests package *)

Definition decimal (z : Z) : string := NilZero.string_of_int (Z.to_int z).

Definition type_name (v : value) : string :=
  match v with
  | PyNone => "NoneType"
  | PyBool _ => "bool"
  | PyInt _ => "int"
  | PyFloat _ => "float"
  | PyStr _ => "str"
  | PyList _ => "list"
  | PyDict _ => "dict"
  end.

(** [obj.get(key, default)]: of the values above only a [dict] has the
    method. *)
Definition method_get (obj : value) (key : string) (default : value)
  : outcome value :=
  match obj with
  | PyDict entries =>
      Returned match dict_get key entries with
               | Some v => v
               | None => default
               end
  | _ =>
      Raised (OtherException "AttributeError"
                ("'" ++ type_name obj ++ "' object has no attribute 'get'"))
  end.

(** [str(e)], as an f-string prints an exception. *)
Definition str_exception (e : exception) : string :=
  match e with
  | HTTPException code detail => decimal code ++ ": " ++ detail
  | ValueError msg | TypeError msg | IndexError msg | binascii_Error msg
  | OtherException _ msg => msg
  end.

(** An f-string field [{v}]: [str(v)].  The text of a float, a list or a
    dict is left to [repr]. *)
Definition format_value (repr : value -> string) (v : value) : string :=
  match v with
  | PyStr s => s
  | PyNone => "None"
  | PyBool true => "True"
  | PyBool false => "False"
  | PyInt z => decimal z
  | _ => repr v
  end.

Module requests.

(** A response as the script uses it: the status line, the URL, and what
    [response.json()] gives. *)
Record Response : Type := {
  status_code : Z;
  reason : string;
  url : string;
  json : outcome value
}.

(** [Response.raise_for_status]: HTTPError for a status from 400 to 599. *)
Definition raise_for_status (r : Response) : outcome unit :=
  let code := status_code r in
  if (400 <=? code) && (code <? 500) then
    Raised (OtherException "HTTPError"
              (decimal code ++ " Client Error: " ++ reason r
               ++ " for url: " ++ url r))
  else if (500 <=? code) && (code <? 600) then
    Raised (OtherException "HTTPError"
              (decimal code ++ " Server Error: " ++ reason r
               ++ " for url: " ++ url r))
  else Returned tt.

End requests.

(** What streamlit_app.py calls and does not define.  [Net] is the state of
    the network and of what is behind it, [F] the type of pandas frames;
    [st_image_call] is what [st.image] does with the bytes of a file: it
    raises when they are not an image it can read. *)
Record Desktop (Net F : Type) : Type := {
  b64encode_decode : list Byte.byte -> string;
  repr : value -> string;
  requests_get : string -> Net -> outcome requests.Response * Net;
  requests_post :
    string -> ImagesRequest -> Z -> Net -> outcome requests.Response * Net;
  pd_DataFrame : value -> outcome F;
  DataFrame_rename : F -> list (string * string) -> F;
  st_image_call : list Byte.byte -> outcome unit
}.

(** The calls that put something on the page. *)
Inductive element (F : Type) : Type :=
| st_lottie (animation : value) (height : Z) (key : string)
| st_markdown (body : string) (unsafe_allow_html : bool)
| st_subheader (body : string)
| st_dataframe (df : F) (use_container_width : bool)
| st_write (body : string)
| st_image (file : list Byte.byte) (use_container_width : bool)
| st_error (body : string).
Arguments st_lottie {F}.
Arguments st_markdown {F}.
Arguments st_subheader {F}.
Arguments st_dataframe {F}.
Arguments st_write {F}.
Arguments st_image {F}.
Arguments st_error {F}.

(** What the block of lines 63-113 leaves on the page: the elements above
    the columns, those of each column, and the exception that ended the
    script, if one did. *)
Record page (F : Type) : Type := {
  above : list (element F);
  col1 : list (element F);
  col2 : list (element F);
  uncaught : option exception
}.

Section App.

Variables Net F : Type.
Variable ui : Desktop Net F.

(** The body of [load_lottie_url] (lines 15-21). *)
Definition load_lottie_url_body (url : string) (net : Net)
  : outcome value * Net :=
  let (o, net') := requests_get ui url net in
  match
    obind o (fun r =>
    if requests.status_code r =? 200
    then obind (requests.json r) (fun animation => Returned (Some animation))
    else Returned None)
  with
  | Returned (Some animation) => (Returned animation, net')
  | Returned None => (Returned PyNone, net')
  | Raised _ => (Returned PyNone, net')
  end.

(** [load_lottie_url] (lines 13-21), under [st.cache_data]: the value
    returned for an argument is kept, and a later call with the same
    argument gets the kept value without running the body.  The cache
    outlives the runs of the script. *)
Definition load_lottie_url (url : string) (cache : list (string * value))
    (net : Net) : outcome value * list (string * value) * Net :=
  match dict_get url cache with
  | Some kept => (Returned kept, cache, net)
  | None =>
      match load_lottie_url_body url net with
      | (Returned v, net') => (Returned v, (url, v) :: cache, net')
      | (Raised e, net') => (Raised e, cache, net')
      end
  end.

Definition lottie_url : string :=
  "https://assets10.lottiefiles.com/packages/lf20_jmehmyzz.json".

(** Lines 23-25: the header animation. *)
Definition header (cache : list (string * value)) (net : Net)
  : outcome (list (element F)) * list (string * value) * Net :=
  let '(o, cache', net') := load_lottie_url lottie_url cache net in
  (obind o (fun lottie_header =>
   Returned (if truthy lottie_header
             then [ st_lottie lottie_header 200 "header_anim" ]
             else [])),
   cache', net').

Definition api_url : string := "http://localhost:8000/api/multiple-invoice".

(** Lines 67-69. *)
Definition payload (img_bytes : list Byte.byte) : ImagesRequest :=
  let img_b64 := b64encode_decode ui img_bytes in
  {| image := "data:image/jpeg;base64," ++ img_b64 |}.

(** The body of the [try] of lines 70-78. *)
Definition fetch_data (img_bytes : list Byte.byte) (net : Net)
  : outcome value * Net :=
  let (o, net') := requests_post ui api_url (payload img_bytes) 60 net in
  (obind o (fun response =>
   obind (requests.raise_for_status response) (fun _ =>
   obind (requests.json response) (fun body =>
   method_get body "data" (PyDict [])))),
   net').

(** Lines 95-102. *)
Definition columns : list (string * string) :=
  [ ("Item_ID", "Item ID");
    ("Item_Description", "Description");
    ("Unit_Price", "Unit Price");
    ("Quantity", "Quantity");
    ("Tax", "Tax");
    ("Total_Amount", "Total Amount") ].

Definition section_open : string :=
  "<div class=" ++ String (ascii_of_nat 34) "section"
  ++ String (ascii_of_nat 34) ">".

(** Lines 87-106, the first column: what is shown, and the exception that
    stopped the column if one did (lines 90, 92 and 94 are outside any
    [try]). *)
Definition invoice_details (data : value)
  : list (element F) * option exception :=
  let shown :=
    [ st_markdown section_open true; st_subheader "Invoice Details" ] in
  match method_get data "date" (PyStr "-") with
  | Raised e => (shown, Some e)
  | Returned invoice_date =>
      let shown :=
        (shown ++ [ st_markdown
                      ("**Date:** " ++ format_value (repr ui) invoice_date)
                      false ])%list in
      match method_get data "products" (PyList []) with
      | Raised e => (shown, Some e)
      | Returned products =>
          if truthy products then
            match pd_DataFrame ui products with
            | Raised e => (shown, Some e)
            | Returned df =>
                let df := DataFrame_rename ui df columns in
                ((shown ++ [ st_dataframe df true;
                             st_markdown "</div>" true ])%list,
                 None)
            end
          else
            ((shown ++ [ st_write "No products found.";
                         st_markdown "</div>" true ])%list,
             None)
      end
  end.

(** Lines 109-113, the second column: what is shown, and the exception
    of [st.image] (line 112, outside any [try]) when it cannot read the
    file. *)
Definition invoice_image (img_bytes : list Byte.byte)
  : list (element F) * option exception :=
  let shown :=
    [ st_markdown section_open true; st_subheader "Invoice Image" ] in
  match st_image_call ui img_bytes with
  | Raised e => (shown, Some e)
  | Returned _ =>
      ((shown ++ [ st_image img_bytes true;
                   st_markdown "</div>" true ])%list,
       None)
  end.

(** Lines 63-113.  [uploaded_file] is [None] until a file is chosen; an
    exception of the [try] is shown and the script stops; an exception of
    the first column ends the script before the second; the spinner is
    gone when the block ends and is not kept. *)
Definition on_upload (uploaded_file : option (list Byte.byte)) (net : Net)
  : page F * Net :=
  match uploaded_file with
  | None =>
      ({| above := []; col1 := []; col2 := []; uncaught := None |}, net)
  | Some img_bytes =>
      match fetch_data img_bytes net with
      | (Raised e, net') =>
          ({| above :=
                [ st_error ("Error during processing: " ++ str_exception e) ];
              col1 := []; col2 := []; uncaught := None |},
           net')
      | (Returned data, net') =>
          match invoice_details data with
          | (shown, Some e) =>
              ({| above := []; col1 := shown; col2 := [];
                  uncaught := Some e |},
               net')
          | (shown, None) =>
              ({| above := []; col1 := shown;
                  col2 := fst (invoice_image img_bytes);
                  uncaught := snd (invoice_image img_bytes) |},
               net')
          end
      end
  end.

End App.

(** *** A desktop for test runs: the standard encoder and a local server *)

Module Local.

(** base64.b64encode, as the standard library documents it: three bytes
    give four characters of the alphabet, and a last group of one or two
    bytes is padded with [=]. *)
Definition b64_char (d : N) : ascii :=
  (if d <? 26 then ascii_of_N (d + 65)
   else if d <? 52 then ascii_of_N (d + 71)
   else if d <? 62 then ascii_of_N (d - 4)
   else if d =? 62 then "+"%char
   else "/"%char)%N.

Definition sextet1 (b1 : Byte.byte) : N := N.shiftr (Byte.to_N b1) 2.

Definition sextet2 (b1 b2 : Byte.byte) : N :=
  N.lor (N.shiftl (N.land (Byte.to_N b1) 3) 4) (N.shiftr (Byte.to_N b2) 4).

Definition sextet3 (b2 b3 : Byte.byte) : N :=
  N.lor (N.shiftl (N.land (Byte.to_N b2) 15) 2) (N.shiftr (Byte.to_N b3) 6).

Definition sextet4 (b3 : Byte.byte) : N := N.land (Byte.to_N b3) 63.

Fixpoint b64encode (data : list Byte.byte) : string :=
  match data with
  | [] => EmptyString
  | [ b1 ] =>
      String (b64_char (sextet1 b1))
        (String (b64_char (sextet2 b1 Byte.x00)) "==")
  | [ b1; b2 ] =>
      String (b64_char (sextet1 b1))
        (String (b64_char (sextet2 b1 b2))
           (String (b64_char (sextet3 b2 Byte.x00)) "="))
  | b1 :: b2 :: b3 :: rest =>
      String (b64_char (sextet1 b1))
        (String (b64_char (sextet2 b1 b2))
           (String (b64_char (sextet3 b2 b3))
              (String (b64_char (sextet4 b3)) (b64encode rest))))
  end.

(** Checks used to compare the encoder with the decoder of [Stub], byte
    by byte. *)
Definition all_bytes : list Byte.byte :=
  flat_map (fun n => match Byte.of_N (N.of_nat n) with
                     | Some b => [ b ]
                     | None => []
                     end) (seq 0 256).

(** What the decoder needs of a character of the encoder. *)
Definition digit_ok (d : N) : bool :=
  negb (Ascii.eqb (b64_char d) "=")
  && match Stub.b64_digit (b64_char d) with
     | Some d' => N.eqb d' d
     | None => false
     end
  && N.ltb (N_of_ascii (b64_char d)) 128
  && negb (Ascii.eqb (b64_char d) comma).

Definition group_head_ok (b1 b2 : Byte.byte) : bool :=
  digit_ok (sextet1 b1) && digit_ok (sextet2 b1 b2)
  && Byte.eqb
       (Stub.byte_of_N
          (N.lor (N.shiftl (sextet1 b1) 2) (N.shiftr (sextet2 b1 b2) 4))) b1
  && N.eqb (N.land (sextet2 b1 b2) 15) (N.shiftr (Byte.to_N b2) 4).

Definition group_tail_ok (b2 b3 : Byte.byte) : bool :=
  digit_ok (sextet3 b2 b3) && digit_ok (sextet4 b3)
  && Byte.eqb
       (Stub.byte_of_N
          (N.lor (N.shiftl (N.shiftr (Byte.to_N b2) 4) 4)
                 (N.shiftr (sextet3 b2 b3) 2))) b2
  && Byte.eqb
       (Stub.byte_of_N
          (N.lor (N.shiftl (N.land (sextet3 b2 b3) 3) 6) (sextet4 b3))) b3.

(** Replies of the model for the runs of the client. *)
Definition one_product_reply : string :=
  "{" ++ Stub.quoted "data" ++ ":{" ++ Stub.quoted "date" ++ ":"
      ++ Stub.quoted "01-01-2024" ++ "," ++ Stub.quoted "products" ++ ":[{"
      ++ Stub.quoted "Item_ID" ++ ":" ++ Stub.quoted "BP-1002" ++ ","
      ++ Stub.quoted "Item_Description" ++ ":" ++ Stub.quoted "Brake pad"
      ++ "," ++ Stub.quoted "Unit_Price" ++ ":10,"
      ++ Stub.quoted "Quantity" ++ ":2," ++ Stub.quoted "Tax" ++ ":3,"
      ++ Stub.quoted "Total_Amount" ++ ":23}]}}".

Definition one_product : value :=
  PyDict [ ("Item_ID", PyStr "BP-1002");
           ("Item_Description", PyStr "Brake pad");
           ("Unit_Price", PyInt 10); ("Quantity", PyInt 2);
           ("Tax", PyInt 3); ("Total_Amount", PyInt 23) ].

Definition null_data_reply : string :=
  "{" ++ Stub.quoted "data" ++ ":null}".

(** The upload of the runs: three zero bytes, [AAAA] in base64. *)
Definition upload : list Byte.byte := [ Byte.x00; Byte.x00; Byte.x00 ].

(** The reason phrases of the two statuses that the endpoint has. *)
Definition reason_phrase (code : Z) : string :=
  if code =? 200 then "OK"
  else if code =? 500 then "Internal Server Error"
  else EmptyString.

(** The response of the endpoint as the client receives it: a JSON body
    decodes to the value that was encoded, the plain text of a server
    error does not decode. *)
Definition on_the_wire (o : outcome value) : requests.Response :=
  {| requests.status_code := status (fastapi_response o);
     requests.reason := reason_phrase (status (fastapi_response o));
     requests.url := api_url;
     requests.json :=
       match o with
       | Returned v =>
           if json_compliant v then Returned v
           else Raised (OtherException "JSONDecodeError" "Expecting value")
       | Raised (HTTPException _ _) => Returned (body (fastapi_response o))
       | Raised _ =>
           Raised (OtherException "JSONDecodeError" "Expecting value")
       end |}.

(** A server that runs [process_invoice] on every post, on a network that
    never fails. *)
Definition post {W} (parser_extract_invoice : list string -> M W value)
    (url : string) (request : ImagesRequest) (timeout : Z) (st : state W)
  : outcome requests.Response * state W :=
  let (o, st') := process_invoice parser_extract_invoice request st in
  (Returned (on_the_wire o), st').

(** A desktop whose encoder is the standard one and whose posts go to the
    local server; pandas, [str], [st.image] and [requests.get] are those of
    [libs], whatever they are. *)
Definition desktop {W F} (parser_extract_invoice : list string -> M W value)
    (libs : Desktop (state W) F) : Desktop (state W) F :=
  {| b64encode_decode := b64encode;
     repr := repr libs;
     requests_get := requests_get libs;
     requests_post := post parser_extract_invoice;
     pd_DataFrame := pd_DataFrame libs;
     DataFrame_rename := DataFrame_rename libs;
     st_image_call := st_image_call libs |}.

(** The smallest of images: one pixel, as a PNG file of 70 bytes. *)
Definition tiny_png_b64 : string :=
  "iVBORw0KGgoAAAANSUhEUgAAAAEAAAABCAYAAAAfFcSJAAAADUlEQVR42mNkYPhfDwAChwGA60e6kgAAAABJRU5ErkJggg==".

Definition tiny_png : list Byte.byte :=
  Eval vm_compute in
    match Stub.b64decode tiny_png_b64 with
    | Returned data => data
    | Raised _ => []
    end.

Definition bytes_eqb (a b : list Byte.byte) : bool :=
  if list_eq_dec Byte.byte_eq_dec a b then true else false.

(** Libraries for the runs below.  A frame only records the list it was
    built from and the renamings it was given, and anything that is not a
    list is refused; of all files [st.image] reads the one-pixel image
    only; there is no connection for [requests.get]; the text of a float,
    a list or a dict is not needed in the runs and is a placeholder. *)
Definition frame : Type := value * list (string * string).

Definition libraries {W} : Desktop (state W) frame :=
  {| b64encode_decode := b64encode;
     repr := fun _ => "<repr>";
     requests_get :=
       fun _ st => (Raised (OtherException "ConnectionError" "offline"), st);
     requests_post :=
       fun _ _ _ st =>
         (Raised (OtherException "ConnectionError" "offline"), st);
     pd_DataFrame :=
       fun records =>
         match records with
         | PyList _ => Returned (records, [])
         | _ =>
             Raised (ValueError "DataFrame constructor not properly called!")
         end;
     DataFrame_rename :=
       fun df names => (fst df, (snd df ++ names)%list);
     st_image_call :=
       fun file =>
         if bytes_eqb file tiny_png then Returned tt
         else Raised (OtherException "UnidentifiedImageError"
                        "cannot identify image file") |}.

End Local.

(** * Properties *)

(** ** Line 19 of api.py: the data-URI prefix *)

Section Split.

Variable sep : ascii.

Lemma contains_append (pre rest : string) :
  contains sep (pre ++ String sep rest) = true.
Proof.
  induction pre as [|a pre IH]; simpl.
  - now rewrite Ascii.eqb_refl.
  - rewrite IH. apply orb_true_r.
Qed.

Lemma split_without_sep (s : string) :
  contains sep s = false -> split sep s = [ s ].
Proof.
  induction s as [|a s IH]; simpl; intros H; [reflexivity|].
  apply orb_false_iff in H as [Ha Hs].
  now rewrite Ha, (IH Hs).
Qed.

Lemma split_with_sep (s : string) :
  contains sep s = true ->
  exists piece piece' pieces, split sep s = piece :: piece' :: pieces.
Proof.
  induction s as [|a s IH]; simpl; intros H; [discriminate|].
  destruct (Ascii.eqb a sep) eqn:Ha.
  - destruct (contains sep s) eqn:Hs.
    + destruct (IH eq_refl) as (p & p' & ps & E). rewrite E. eauto.
    + rewrite (split_without_sep _ Hs). eauto.
  - simpl in H. destruct (IH H) as (p & p' & ps & E). rewrite E. eauto.
Qed.

Lemma subscript_last_split (pre payload : string) :
  contains sep payload = false ->
  subscript_last (split sep (pre ++ String sep payload)) = Returned payload.
Proof.
  intros Hp. induction pre as [|a pre IH]; simpl.
  - rewrite Ascii.eqb_refl, (split_without_sep _ Hp). reflexivity.
  - destruct (split_with_sep _ (contains_append pre payload))
      as (p & p' & ps & E).
    rewrite E in IH |- *.
    destruct (Ascii.eqb a sep); exact IH.
Qed.

Lemma contains_decompose (s : string) :
  contains sep s = true ->
  exists pre payload,
    s = pre ++ String sep payload /\ contains sep payload = false.
Proof.
  induction s as [|a s IH]; simpl; intros H; [discriminate|].
  destruct (contains sep s) eqn:Hs.
  - destruct (IH eq_refl) as (pre & payload & -> & Hp).
    exists (String a pre), payload. split; [reflexivity|exact Hp].
  - rewrite orb_false_r in H. apply Ascii.eqb_eq in H. subst a.
    exists EmptyString, s. split; [reflexivity|exact Hs].
Qed.

End Split.

Lemma b64_image_of_payload (pre payload : string) :
  contains comma payload = false ->
  b64_image_of (pre ++ String comma payload) = Returned payload.
Proof.
  intros Hp. unfold b64_image_of.
  rewrite contains_append. now apply subscript_last_split.
Qed.

Lemma b64_image_of_raw (image : string) :
  contains comma image = false -> b64_image_of image = Returned image.
Proof. intros H. unfold b64_image_of. now rewrite H. Qed.

Example b64_image_of_data_uri :
  b64_image_of "data:image/jpeg;base64,XXXX" = Returned "XXXX".
Proof. reflexivity. Qed.

Example b64_image_of_two_commas :
  b64_image_of "data:image/jpeg;name=a,b;base64,XXXX" = Returned "XXXX".
Proof. reflexivity. Qed.

(** C4. Whatever the request body, the endpoint calls the adapter on a
    one-element list [[b64_image]], and runs nothing else before that call:
    when the body has no comma, [b64_image] is the body unchanged; when it
    has one, the body is [pre ++ "," ++ b64_image] with no comma in
    [b64_image], that is, [b64_image] is what follows the last comma. *)
Theorem process_invoice_passes_text_after_last_comma :
  forall (W : Type) (parser_extract_invoice : list string -> M W value)
         (body_image : string),
  exists b64_image : string,
    b64_image_of body_image = Returned b64_image
    /\ (forall st,
          process_invoice parser_extract_invoice {| image := body_image |} st
          = try_except
              (invoice_data <- parser_extract_invoice [ b64_image ] ;;
               if negb (truthy invoice_data)
               then raise (HTTPException 500 "Invoice processing failed")
               else ret invoice_data)
              (fun _ => raise (HTTPException 500 "Internal server error")) st)
    /\ ((contains comma body_image = false /\ b64_image = body_image)
        \/ (contains comma b64_image = false
            /\ exists pre, body_image = pre ++ "," ++ b64_image)).
Proof.
  intros W parser_extract_invoice body_image.
  destruct (contains comma body_image) eqn:Hc.
  - destruct (contains_decompose _ _ Hc) as (pre & payload & -> & Hp).
    exists payload. split; [now apply b64_image_of_payload|]. split.
    + intros st. unfold process_invoice, bind, lift. simpl image.
      now rewrite (b64_image_of_payload pre _ Hp).
    + right. split; [exact Hp|]. now exists pre.
  - exists body_image. split; [now apply b64_image_of_raw|]. split.
    + intros st. unfold process_invoice, bind, lift. simpl image.
      now rewrite (b64_image_of_raw _ Hc).
    + left. now split.
Qed.

(** ** The endpoint, whatever the adapter *)

Section Endpoint.

Context {W : Type} (parser_extract_invoice : list string -> M W value).

(** The three ways out of [process_invoice]. *)
Lemma post_multiple_invoice_cases (request : ImagesRequest) (b64 : string)
    (st : state W) :
  b64_image_of (image request) = Returned b64 ->
  post_multiple_invoice parser_extract_invoice request st =
    match parser_extract_invoice [ b64 ] st with
    | (Returned v, st') =>
        if truthy v then (fastapi_response (Returned v), st')
        else (error_response 500 "Internal server error", st')
    | (Raised _, st') => (error_response 500 "Internal server error", st')
    end.
Proof.
  intros Hb.
  unfold post_multiple_invoice, process_invoice, processing_block,
    try_except, bind, lift.
  rewrite Hb.
  destruct (parser_extract_invoice [ b64 ] st) as [[v|e] st']; [|reflexivity].
  destruct (truthy v); reflexivity.
Qed.

(** Where an exception of the [try] body comes from: the adapter call,
    or the [raise] of line 24. *)
Lemma processing_block_raises (b64 : string) (st st' : state W)
    (e : exception) :
  processing_block parser_extract_invoice b64 st = (Raised e, st') <->
  parser_extract_invoice [ b64 ] st = (Raised e, st')
  \/ (exists v, parser_extract_invoice [ b64 ] st = (Returned v, st')
                /\ truthy v = false
                /\ e = HTTPException 500 "Invoice processing failed").
Proof.
  unfold processing_block, bind, raise, ret.
  destruct (parser_extract_invoice [ b64 ] st) as [[v|e0] st0].
  - destruct (truthy v) eqn:Hv; simpl; split.
    + discriminate.
    + intros [H|(v' & H & Hf & _)]; [discriminate|].
      injection H as <- <-. congruence.
    + intros H. injection H as <- <-. right. now exists v.
    + intros [H|(v' & H & _ & ->)]; [discriminate|].
      now injection H as <- <-.
  - split.
    + intros H. injection H as <- <-. now left.
    + intros [H|(v' & H & _)]; [exact H|discriminate].
Qed.

(** The response depends on the adapter's outcome only, not on the state
    in which the adapter left the service. *)
Lemma post_multiple_invoice_response (request : ImagesRequest)
    (st1 st2 : state W) :
  (forall imgs, fst (parser_extract_invoice imgs st1)
                = fst (parser_extract_invoice imgs st2)) ->
  fst (post_multiple_invoice parser_extract_invoice request st1)
  = fst (post_multiple_invoice parser_extract_invoice request st2).
Proof.
  intros Hp.
  unfold post_multiple_invoice, process_invoice, processing_block,
    try_except, bind, lift.
  destruct (b64_image_of (image request)) as [b64|e]; [|reflexivity].
  specialize (Hp [ b64 ]).
  destruct (parser_extract_invoice [ b64 ] st1) as [[v1|e1] st1'],
           (parser_extract_invoice [ b64 ] st2) as [[v2|e2] st2'];
    simpl in Hp; try discriminate.
  - injection Hp as <-. destruct (truthy v1); reflexivity.
  - reflexivity.
Qed.

End Endpoint.

(** C1 (what the code does). When the adapter returns a null or empty
    result, the [HTTPException] raised on line 24 with the detail "Invoice
    processing failed" is caught by the [except Exception] of line 26, and
    the response is HTTP 500 with the detail "Internal server error". *)
Theorem falsy_adapter_result_answers_internal_server_error :
  forall (W : Type) (parser_extract_invoice : list string -> M W value)
         (request : ImagesRequest) (b64 : string) (v : value)
         (st st' : state W),
    b64_image_of (image request) = Returned b64 ->
    parser_extract_invoice [ b64 ] st = (Returned v, st') ->
    truthy v = false ->
    post_multiple_invoice parser_extract_invoice request st
    = (error_response 500 "Internal server error", st')
    /\ fst (post_multiple_invoice parser_extract_invoice request st)
       <> error_response 500 "Invoice processing failed".
Proof.
  intros W p request b64 v st st' Hb Hp Hv.
  rewrite (post_multiple_invoice_cases p request st Hb), Hp, Hv.
  split; [reflexivity|]. simpl. unfold error_response. intros H.
  discriminate H.
Qed.

(** C3. Whatever exception the [try] body of the endpoint raises, in the
    adapter call or in the handling of its result, the response is HTTP 500
    with the body [{"detail": "Internal server error"}]: a constant, in
    which neither the message nor the type of the exception appears. *)
Theorem exception_in_processing_block_answers_fixed_detail :
  forall (W : Type) (parser_extract_invoice : list string -> M W value)
         (request : ImagesRequest) (b64 : string) (e : exception)
         (st st' : state W),
    b64_image_of (image request) = Returned b64 ->
    processing_block parser_extract_invoice b64 st = (Raised e, st') ->
    post_multiple_invoice parser_extract_invoice request st
    = ({| status := 500;
          body := PyDict [ ("detail", PyStr "Internal server error") ] |},
       st').
Proof.
  intros W p request b64 e st st' Hb He.
  rewrite (post_multiple_invoice_cases p request st Hb).
  apply processing_block_raises in He as [H|(v & H & Hv & _)]; rewrite H.
  - reflexivity.
  - now rewrite Hv.
Qed.

(** ** The adapter *)

Section AdapterFacts.

Context {W : Type} (env : Environment W) (self : InvoiceParser).

(** The state after the adapter's one request to the service. *)
Local Abbreviation after st parts w :=
  {| service := w;
     calls := ContentRequested (request_of self parts) :: calls st |}.

Lemma decode_images_raises (b64_images : list string) (img : string) :
  In img b64_images ->
  is_raised (base64_b64decode env img) = true ->
  is_raised (decode_images env b64_images) = true.
Proof.
  unfold decode_images.
  induction b64_images as [|x rest IH]; simpl; intros Hin Hr; [contradiction|].
  destruct (base64_b64decode env x) as [data|e] eqn:Hx; simpl; [|reflexivity].
  destruct Hin as [->|Hin]; [rewrite Hx in Hr; discriminate|].
  specialize (IH Hin Hr).
  destruct (comprehension _ rest); [discriminate|reflexivity].
Qed.

(** First [try] block: no request is sent when an image does not decode. *)
Lemma extract_invoice_decode_failure (b64_images : list string)
    (st : state W) :
  is_raised (decode_images env b64_images) = true ->
  extract_invoice env self b64_images st = (Returned PyNone, st).
Proof.
  unfold extract_invoice, try_or_return_None, lift. intros H.
  destruct (decode_images env b64_images); [discriminate|reflexivity].
Qed.

(** Second [try] block. *)
Lemma extract_invoice_service_failure (b64_images : list string)
    (parts : list genai.Part) (e : exception) (w : W) (st : state W) :
  decode_images env b64_images = Returned parts ->
  models_generate_content env (client self) (request_of self parts)
    (service st) = (Raised e, w) ->
  extract_invoice env self b64_images st = (Returned PyNone, after st parts w).
Proof.
  unfold extract_invoice, try_or_return_None, lift, call_generate_content.
  intros -> ->. reflexivity.
Qed.

(** Third [try] block and the final [return]. *)
Lemma extract_invoice_reply (b64_images : list string)
    (parts : list genai.Part) (response : genai.GenerateContentResponse)
    (w : W) (st : state W) :
  decode_images env b64_images = Returned parts ->
  models_generate_content env (client self) (request_of self parts)
    (service st) = (Returned response, w) ->
  extract_invoice env self b64_images st =
    (Returned
       match genai.text response with
       | Some reply =>
           if truthy (parse_json env reply) then parse_json env reply
           else PyNone
       | None => PyNone
       end,
     after st parts w).
Proof.
  unfold extract_invoice, try_or_return_None, lift, call_generate_content.
  intros -> ->.
  destruct (genai.text response) as [reply|]; [|reflexivity].
  destruct (truthy (parse_json env reply)); reflexivity.
Qed.



(** With a deterministic model, what the adapter returns does not depend
    on the state of the service. *)
Lemma extract_invoice_deterministic
    (reply : genai.Client -> genai.GenerateContentRequest ->
             outcome genai.GenerateContentResponse)
    (b64_images : list string) (st1 st2 : state W) :
  (forall c rq w, fst (models_generate_content env c rq w) = reply c rq) ->
  fst (extract_invoice env self b64_images st1)
  = fst (extract_invoice env self b64_images st2).
Proof.
  intros Hdet.
  unfold extract_invoice, try_or_return_None, lift, call_generate_content.
  destruct (decode_images env b64_images) as [parts|e]; [|reflexivity].
  pose proof (Hdet (client self) (request_of self parts) (service st1)) as H1.
  pose proof (Hdet (client self) (request_of self parts) (service st2)) as H2.
  destruct (models_generate_content _ _ _ (service st1)) as [o1 w1],
           (models_generate_content _ _ _ (service st2)) as [o2 w2].
  simpl in H1, H2. subst o1 o2.
  destruct (reply _ _) as [response|e]; [|reflexivity].
  destruct (genai.text response) as [text|]; [|reflexivity].
  destruct (truthy (parse_json env text)); reflexivity.
Qed.

End AdapterFacts.

Lemma truthy_false_iff (v : value) :
  truthy v = false <->
  v = PyNone \/ v = PyBool false \/ v = PyInt 0
  \/ (exists s, v = PyFloat (S754_zero s))
  \/ v = PyStr EmptyString \/ v = PyList [] \/ v = PyDict [].
Proof.
  split.
  - destruct v as [|[]|z|[s| | |]|[|]|[|]|[|]]; simpl; intros H;
      try discriminate; try tauto.
    + apply negb_false_iff, Z.eqb_eq in H. subst. tauto.
    + right. right. right. left. now exists s.
  - intros [->|[->|[->|[[s ->]|[->|[->| ->]]]]]]; reflexivity.
Qed.

(** ** The adapter behind the endpoint *)

(** The shared step of the failures below: the parsed reply is falsy. *)
Lemma falsy_parse_is_a_failure {W : Type} (env : Environment W)
    (self : InvoiceParser) (b64_images : list string)
    (parts : list genai.Part) (response : genai.GenerateContentResponse)
    (reply : string) (w : W) (st : state W) :
  decode_images env b64_images = Returned parts ->
  models_generate_content env (client self) (request_of self parts)
    (service st) = (Returned response, w) ->
  genai.text response = Some reply ->
  truthy (parse_json env reply) = false ->
  fst (extract_invoice env self b64_images st) = Returned PyNone
  /\ forall request b64,
       b64_image_of (image request) = Returned b64 ->
       b64_images = [ b64 ] ->
       fst (post_multiple_invoice (extract_invoice env self) request st)
       = error_response 500 "Internal server error".
Proof.
  intros Hd Hs Ht Hu.
  pose proof (extract_invoice_reply env self b64_images st Hd Hs) as He.
  rewrite Ht, Hu in He.
  split; [now rewrite He|].
  intros request b64 Hb ->.
  now rewrite (post_multiple_invoice_cases _ request st Hb), He.
Qed.

(** C5. When an image of the input list does not decode, [extract_invoice]
    returns [None] without sending anything to the service; a request
    whose image is that string is answered with HTTP 500, not 200. *)
Theorem undecodable_image_is_a_failure :
  forall (W : Type) (env : Environment W) (self : InvoiceParser)
         (b64_images : list string) (img : string)
         (request : ImagesRequest) (st : state W),
    In img b64_images ->
    is_raised (base64_b64decode env img) = true ->
    b64_image_of (image request) = Returned img ->
    extract_invoice env self b64_images st = (Returned PyNone, st)
    /\ post_multiple_invoice (extract_invoice env self) request st
       = (error_response 500 "Internal server error", st)
    /\ status (fst (post_multiple_invoice (extract_invoice env self)
                      request st)) <> 200.
Proof.
  intros W env self b64_images img request st Hin Hr Hb.
  assert (Hone : extract_invoice env self [ img ] st = (Returned PyNone, st)).
  { apply extract_invoice_decode_failure.
    apply decode_images_raises with img; [now left|exact Hr]. }
  split; [|split].
  - apply extract_invoice_decode_failure.
    now apply decode_images_raises with img.
  - now rewrite (post_multiple_invoice_cases _ request st Hb), Hone.
  - rewrite (post_multiple_invoice_cases _ request st Hb), Hone.
    simpl. discriminate.
Qed.


(** C10. The documents [{}], [[]], the empty string, [0], [false] and
    [null] denote
    falsy values, and when the repair of the reply succeeds with a falsy
    value [extract_invoice] returns [None] and the endpoint answers HTTP
    500: a well-formed empty reply is a failure. *)
Theorem falsy_document_is_a_failure :
  forall (W : Type) (env : Environment W) (self : InvoiceParser)
         (b64_images : list string) (parts : list genai.Part)
         (response : genai.GenerateContentResponse) (reply : string)
         (v : value) (w : W) (st : state W),
    decode_images env b64_images = Returned parts ->
    models_generate_content env (client self) (request_of self parts)
      (service st) = (Returned response, w) ->
    genai.text response = Some reply ->
    json_repair_loads env reply = Returned v ->
    truthy v = false ->
    forallb (fun d => negb (truthy d))
      [ PyDict []; PyList []; PyStr EmptyString; PyInt 0; PyBool false; PyNone ] = true
    /\ fst (extract_invoice env self b64_images st) = Returned PyNone
    /\ forall request b64,
         b64_image_of (image request) = Returned b64 ->
         b64_images = [ b64 ] ->
         fst (post_multiple_invoice (extract_invoice env self) request st)
         = error_response 500 "Internal server error".
Proof.
  intros W env self b64_images parts response reply v w st Hd Hs Ht Hl Hv.
  split; [reflexivity|].
  assert (Hu : truthy (parse_json env reply) = false).
  { unfold parse_json. now rewrite Hl. }
  destruct (falsy_parse_is_a_failure env self b64_images st Hd Hs Ht Hu)
    as [H1 H2].
  split; [exact H1|]. intros request b64 Hb E. exact (H2 request b64 Hb E).
Qed.


(** A reply with a number too large for a float is repaired into an
    object holding an infinity: the adapter returns it, and the response
    is a 500 because the JSON encoder refuses it. *)
Example overflowing_number_is_a_plain_500 :
  fst (post_multiple_invoice
         (extract_invoice
            (Stub.answering ("{" ++ Stub.quoted "a" ++ ":1e400}"))
            Stub.parser)
         {| image := "AAAA" |} Stub.boot)
  = {| status := 500; body := PyStr "Internal Server Error" |}.
Proof. vm_compute. reflexivity. Qed.


(** C7. On the reply [{"date":"01-01-2024","products":[],}] the repair
    step gives the object that [{"date":"01-01-2024","products":[]}]
    denotes. *)
Theorem parse_json_repairs_trailing_comma :
  forall (environ : string -> option string)
         (reply : nat -> genai.GenerateContentRequest ->
                  outcome genai.GenerateContentResponse),
    parse_json (Stub.env environ reply) Stub.trailing_comma_reply
    = PyDict [ ("date", PyStr "01-01-2024"); ("products", PyList []) ]
    /\ parse_json (Stub.env environ reply) Stub.strict_reply
       = PyDict [ ("date", PyStr "01-01-2024"); ("products", PyList []) ].
Proof. intros environ reply. split; vm_compute; reflexivity. Qed.

(** C8. With a model whose reply is a function of the request sent to
    it, two invocations of the endpoint with the same request body give the
    same response (status and body), in whatever states they find the
    service: in particular when one follows the other. *)
Theorem identical_requests_give_identical_responses :
  forall (W : Type) (env : Environment W) (self : InvoiceParser)
         (reply : genai.Client -> genai.GenerateContentRequest ->
                  outcome genai.GenerateContentResponse)
         (request : ImagesRequest) (st1 st2 : state W),
    (forall c rq w, fst (models_generate_content env c rq w) = reply c rq) ->
    fst (post_multiple_invoice (extract_invoice env self) request st1)
    = fst (post_multiple_invoice (extract_invoice env self) request st2)
    /\ fst (post_multiple_invoice (extract_invoice env self) request st1)
       = fst (post_multiple_invoice (extract_invoice env self) request
                (snd (post_multiple_invoice (extract_invoice env self)
                        request st1))).
Proof.
  intros W env self reply request st1 st2 Hdet.
  split; apply post_multiple_invoice_response; intros imgs;
    now apply extract_invoice_deterministic with reply.
Qed.

(** C9. With no [api_key] argument and no GEMINI_API_KEY in the
    environment, [__init__] raises ValueError; the state is the one it
    started in, so no client was created and no request was sent.  The
    same holds for the [InvoiceParser()] of api.py. *)
Theorem missing_api_key_fails_at_initialization :
  forall (W : Type) (env : Environment W) (model : string) (st : state W),
    os_environ_get env "GEMINI_API_KEY" = None ->
    __init__ env None model st
    = (Raised (ValueError "Gemini API key not provided"), st)
    /\ startup env st
       = (Raised (ValueError "Gemini API key not provided"), st).
Proof.
  intros W env model st H. unfold startup, __init__, py_or.
  rewrite H. split; reflexivity.
Qed.

(** ** Runs against the test doubles *)

Example startup_with_key :
  startup (Stub.answering EmptyString) Stub.boot
  = (Returned Stub.parser,
     {| service := O; calls := [ ClientCreated "test-key" ] |}).
Proof. reflexivity. Qed.

Example temperature_is_0_2 :
  genai.temperature generate_content_config
  = S754_finite false 7205759403792794 (-55).
Proof. vm_compute. reflexivity. Qed.

Example garbage_reply_is_a_failure :
  fst (post_multiple_invoice
         (extract_invoice (Stub.answering "I cannot read this image")
            Stub.parser)
         {| image := "AAAA" |} Stub.boot)
  = error_response 500 "Internal server error".
Proof. vm_compute. reflexivity. Qed.

Example conformant_reply_is_a_success :
  fst (post_multiple_invoice
         (extract_invoice (Stub.answering Stub.wrapped_reply) Stub.parser)
         {| image := "data:image/jpeg;base64,AAAA" |} Stub.boot)
  = {| status := 200;
       body := PyDict [ ("data", PyDict [ ("date", PyStr "01-01-2024");
                                          ("products", PyList []) ]) ] |}.
Proof. vm_compute. reflexivity. Qed.

(** Without the determinism of the model the two responses may differ. *)
Example changing_model_changes_the_response :
  fst (post_multiple_invoice
         (extract_invoice
            (Stub.env Stub.environ_with_key
               (Stub.alternates Stub.wrapped_reply EmptyString))
            Stub.parser)
         {| image := "AAAA" |} Stub.boot)
  <> fst (post_multiple_invoice
            (extract_invoice
               (Stub.env Stub.environ_with_key
                  (Stub.alternates Stub.wrapped_reply EmptyString))
               Stub.parser)
            {| image := "AAAA" |} Stub.served_once).
Proof. vm_compute. discriminate. Qed.

Lemma falsy_adapter_result_witness :
  post_multiple_invoice (extract_invoice (Stub.answering EmptyString) Stub.parser)
    {| image := "A" |} Stub.boot
  = (error_response 500 "Internal server error", Stub.boot)
  /\ fst (post_multiple_invoice
            (extract_invoice (Stub.answering EmptyString) Stub.parser)
            {| image := "A" |} Stub.boot)
     <> error_response 500 "Invoice processing failed".
Proof.
  apply (@falsy_adapter_result_answers_internal_server_error nat
           (extract_invoice (Stub.answering EmptyString) Stub.parser)
           {| image := "A" |} "A" PyNone Stub.boot Stub.boot);
    reflexivity.
Defined.

Lemma exception_in_processing_block_witness :
  processing_block Stub.crashing_parser "AAAA" Stub.boot
  = (Raised (OtherException "RuntimeError" "secret: key=test-key"), Stub.boot)
  /\ post_multiple_invoice Stub.crashing_parser
       {| image := "data:image/jpeg;base64,AAAA" |} Stub.boot
     = (error_response 500 "Internal server error", Stub.boot).
Proof.
  split; [reflexivity|].
  apply (@exception_in_processing_block_answers_fixed_detail nat
           Stub.crashing_parser {| image := "data:image/jpeg;base64,AAAA" |}
           "AAAA" (OtherException "RuntimeError" "secret: key=test-key")
           Stub.boot Stub.boot);
    reflexivity.
Defined.

Lemma undecodable_image_witness :
  is_raised (base64_b64decode (Stub.answering Stub.wrapped_reply) "A") = true
  /\ extract_invoice (Stub.answering Stub.wrapped_reply) Stub.parser
       [ "AAAA"; "A" ] Stub.boot
     = (Returned PyNone, Stub.boot)
  /\ status
       (fst (post_multiple_invoice
               (extract_invoice (Stub.answering Stub.wrapped_reply)
                  Stub.parser)
               {| image := "data:image/jpeg;base64,A" |} Stub.boot))
     <> 200.
Proof.
  split; [reflexivity|].
  destruct (@undecodable_image_is_a_failure nat
              (Stub.answering Stub.wrapped_reply) Stub.parser
              [ "AAAA"; "A" ] "A"
              {| image := "data:image/jpeg;base64,A" |} Stub.boot)
    as (H1 & _ & H3);
    [right; left; reflexivity|reflexivity|reflexivity|].
  split; [exact H1|exact H3].
Defined.


Lemma falsy_document_witness :
  json_repair_loads (Stub.answering "{}") "{}" = Returned (PyDict [])
  /\ fst (extract_invoice (Stub.answering "{}") Stub.parser [ "AAAA" ]
            Stub.boot)
     = Returned PyNone
  /\ fst (post_multiple_invoice
            (extract_invoice (Stub.answering "{}") Stub.parser)
            {| image := "AAAA" |} Stub.boot)
     = error_response 500 "Internal server error".
Proof.
  split; [reflexivity|].
  destruct (@falsy_document_is_a_failure nat (Stub.answering "{}")
              Stub.parser [ "AAAA" ]
              [ genai.from_bytes "image/jpeg"
                  [ Byte.x00; Byte.x00; Byte.x00 ] ]
              {| genai.text := Some "{}" |} "{}" (PyDict []) 1%nat Stub.boot)
    as (_ & H1 & H2);
    [reflexivity|reflexivity|reflexivity|reflexivity|reflexivity|].
  split; [exact H1|].
  apply (H2 {| image := "AAAA" |} "AAAA"); reflexivity.
Defined.


Lemma identical_requests_witness :
  (forall c rq w,
     fst (models_generate_content (Stub.answering Stub.wrapped_reply) c rq w)
     = Returned {| genai.text := Some Stub.wrapped_reply |})
  /\ snd (post_multiple_invoice
            (extract_invoice (Stub.answering Stub.wrapped_reply) Stub.parser)
            {| image := "AAAA" |} Stub.boot)
     = Stub.served_once
  /\ fst (post_multiple_invoice
            (extract_invoice (Stub.answering Stub.wrapped_reply) Stub.parser)
            {| image := "AAAA" |} Stub.boot)
     = fst (post_multiple_invoice
              (extract_invoice (Stub.answering Stub.wrapped_reply)
                 Stub.parser)
              {| image := "AAAA" |} Stub.served_once).
Proof.
  split; [intros c rq w; reflexivity|].
  split; [reflexivity|].
  apply (@identical_requests_give_identical_responses nat
           (Stub.answering Stub.wrapped_reply) Stub.parser
           (fun _ _ => Returned {| genai.text := Some Stub.wrapped_reply |})
           {| image := "AAAA" |} Stub.boot Stub.served_once).
  intros c rq w. reflexivity.
Defined.

Lemma missing_api_key_witness :
  os_environ_get (Stub.env Stub.environ_without_key (Stub.says EmptyString))
    "GEMINI_API_KEY" = None
  /\ startup (Stub.env Stub.environ_without_key (Stub.says EmptyString)) Stub.boot
     = (Raised (ValueError "Gemini API key not provided"), Stub.boot).
Proof.
  split; [reflexivity|].
  apply (@missing_api_key_fails_at_initialization nat
           (Stub.env Stub.environ_without_key (Stub.says EmptyString))
           "gemini-2.5-flash" Stub.boot).
  reflexivity.
Defined.

(** * Further properties of the adapter and the endpoint *)

(** ** extract_invoice *)


(** X2. One call of [extract_invoice] sends at most one request and never
    retries: nothing leaves the process when an image does not decode, and
    otherwise exactly one [generate_content] request is sent, the one built
    from the decoded images, whatever the service answers. *)
Theorem extract_invoice_sends_at_most_one_request :
  forall (W : Type) (env : Environment W) (self : InvoiceParser)
         (b64_images : list string) (st : state W),
    match decode_images env b64_images with
    | Raised _ => snd (extract_invoice env self b64_images st) = st
    | Returned parts =>
        calls (snd (extract_invoice env self b64_images st))
        = ContentRequested (request_of self parts) :: calls st
        /\ service (snd (extract_invoice env self b64_images st))
           = snd (models_generate_content env (client self)
                    (request_of self parts) (service st))
    end.
Proof.
  intros W env self b64_images st.
  unfold extract_invoice, try_or_return_None, lift, call_generate_content.
  destruct (decode_images env b64_images) as [parts|e]; [|reflexivity].
  destruct (models_generate_content _ _ _ _) as [[response|e] w];
    [|split; reflexivity].
  destruct (genai.text response) as [reply|]; [|split; reflexivity].
  destruct (truthy (parse_json env reply)); split; reflexivity.
Qed.

(** X3. The decoding of the images is all or nothing and keeps the order:
    it returns exactly when every image decodes, and then there is one
    part per image, in the order of the input, each holding the decoded
    bytes under the MIME type image/jpeg. *)
Theorem decode_images_all_or_nothing :
  forall (W : Type) (env : Environment W) (b64_images : list string)
         (parts : list genai.Part),
    decode_images env b64_images = Returned parts <->
    Forall2
      (fun img part =>
         exists data, base64_b64decode env img = Returned data
                      /\ part = genai.from_bytes "image/jpeg" data)
      b64_images parts.
Proof.
  intros W env b64_images. unfold decode_images.
  induction b64_images as [|img rest IH]; intros parts; simpl.
  - split.
    + intros H. injection H as <-. constructor.
    + intros H. inversion H. reflexivity.
  - split.
    + destruct (base64_b64decode env img) as [data|e] eqn:Hd; simpl;
        [|discriminate].
      destruct (comprehension _ rest) as [ps|e] eqn:Hr; simpl; [|discriminate].
      intros H. injection H as <-. constructor.
      * now exists data.
      * now apply IH.
    + intros H. inversion H as [|? part ? ps (data & Hd & ->) Hrest]; subst.
      rewrite Hd. simpl. apply IH in Hrest. now rewrite Hrest.
Qed.

(** X4. When the call to the model service raises (network, credentials,
    quota), [extract_invoice] returns [None] after that single request, and
    the endpoint answers HTTP 500. *)
Theorem service_failure_is_a_failure :
  forall (W : Type) (env : Environment W) (self : InvoiceParser)
         (request : ImagesRequest) (b64 : string)
         (parts : list genai.Part) (e : exception) (w : W) (st : state W),
    b64_image_of (image request) = Returned b64 ->
    decode_images env [ b64 ] = Returned parts ->
    models_generate_content env (client self) (request_of self parts)
      (service st) = (Raised e, w) ->
    extract_invoice env self [ b64 ] st
    = (Returned PyNone,
       {| service := w;
          calls := ContentRequested (request_of self parts) :: calls st |})
    /\ fst (post_multiple_invoice (extract_invoice env self) request st)
       = error_response 500 "Internal server error".
Proof.
  intros W env self request b64 parts e w st Hb Hd Hs.
  pose proof (extract_invoice_service_failure env self [ b64 ] st Hd Hs) as He.
  split; [exact He|].
  now rewrite (post_multiple_invoice_cases _ request st Hb), He.
Qed.

(** X5. When the service answers without any text ([response.text] is
    [None]), the slice [response.text[:300]] raises inside the third [try]
    block: [extract_invoice] returns [None] without calling the repair, and
    the endpoint answers HTTP 500. *)
Theorem reply_without_text_is_a_failure :
  forall (W : Type) (env : Environment W) (self : InvoiceParser)
         (request : ImagesRequest) (b64 : string)
         (parts : list genai.Part)
         (response : genai.GenerateContentResponse) (w : W) (st : state W),
    b64_image_of (image request) = Returned b64 ->
    decode_images env [ b64 ] = Returned parts ->
    models_generate_content env (client self) (request_of self parts)
      (service st) = (Returned response, w) ->
    genai.text response = None ->
    fst (extract_invoice env self [ b64 ] st) = Returned PyNone
    /\ fst (post_multiple_invoice (extract_invoice env self) request st)
       = error_response 500 "Internal server error".
Proof.
  intros W env self request b64 parts response w st Hb Hd Hs Ht.
  pose proof (extract_invoice_reply env self [ b64 ] st Hd Hs) as He.
  rewrite Ht in He.
  split; [now rewrite He|].
  now rewrite (post_multiple_invoice_cases _ request st Hb), He.
Qed.

(** ** InvoiceParser.__init__ *)

(** X6. A parser that [__init__] returns has a non-empty key: the
    argument when it is a non-empty string, the GEMINI_API_KEY variable
    otherwise.  Its client is the one created for that key, its model is
    the argument, and creating the client is the only external call. *)
Theorem initialized_parser_has_a_key :
  forall (W : Type) (env : Environment W) (key_arg : option string)
         (model_arg : string) (p : InvoiceParser) (st st' : state W),
    __init__ env key_arg model_arg st = (Returned p, st') ->
    api_key p <> EmptyString
    /\ (forall k, key_arg = Some k -> k <> EmptyString -> api_key p = k)
    /\ (key_arg = None \/ key_arg = Some EmptyString ->
        os_environ_get env "GEMINI_API_KEY" = Some (api_key p))
    /\ genai_Client env (api_key p) = Returned (client p)
    /\ model p = model_arg
    /\ st' = {| service := service st;
                calls := ClientCreated (api_key p) :: calls st |}.
Proof.
  intros W env key_arg model_arg p st st'.
  unfold __init__, try_except, bind, call_Client, ret, raise.
  destruct (py_or key_arg (os_environ_get env "GEMINI_API_KEY"))
    as [[|c k]|] eqn:Hk; try discriminate.
  destruct (genai_Client env (String c k)) as [cl|e] eqn:Hc; [|discriminate].
  intros H. injection H as <- <-. simpl.
  repeat split; try assumption; try discriminate.
  - intros k' -> Hne. destruct k' as [|c' k']; [contradiction|].
    simpl in Hk. now injection Hk as -> ->.
  - intros [->| ->]; exact Hk.
Qed.

(** X7. An empty string counts as a missing key: when the argument is
    absent or empty and GEMINI_API_KEY is unset or empty, [__init__] raises
    ValueError before creating a client. *)
Theorem empty_api_key_is_missing :
  forall (W : Type) (env : Environment W) (key_arg : option string)
         (model_arg : string) (st : state W),
    key_arg = None \/ key_arg = Some EmptyString ->
    os_environ_get env "GEMINI_API_KEY" = None
    \/ os_environ_get env "GEMINI_API_KEY" = Some EmptyString ->
    __init__ env key_arg model_arg st
    = (Raised (ValueError "Gemini API key not provided"), st).
Proof.
  intros W env key_arg model_arg st Hk He. unfold __init__.
  destruct Hk as [->| ->], He as [->| ->]; reflexivity.
Qed.

(** X8. When [genai.Client] raises, [__init__] raises the same exception:
    no parser is built. *)
Theorem client_failure_is_raised_again :
  forall (W : Type) (env : Environment W) (key_arg : option string)
         (model_arg : string) (c : ascii) (k : string) (e : exception)
         (st : state W),
    py_or key_arg (os_environ_get env "GEMINI_API_KEY") = Some (String c k) ->
    genai_Client env (String c k) = Raised e ->
    __init__ env key_arg model_arg st
    = (Raised e,
       {| service := service st;
          calls := ClientCreated (String c k) :: calls st |}).
Proof.
  intros W env key_arg model_arg c k e st Hk Hc.
  unfold __init__, try_except, bind, call_Client, raise.
  now rewrite Hk, Hc.
Qed.

(** ** The schema and the emptiness test *)



(** ** process_invoice *)

(** Line 19 never raises: [split] gives at least one piece. *)
Lemma b64_image_of_returns (body_image : string) :
  exists b64, b64_image_of body_image = Returned b64.
Proof.
  destruct (contains comma body_image) eqn:Hc.
  - destruct (contains_decompose _ _ Hc) as (pre & payload & -> & Hp).
    exists payload. now apply b64_image_of_payload.
  - exists body_image. now apply b64_image_of_raw.
Qed.

(** X10. Whatever the adapter does, the endpoint answers 200 or 500 and
    nothing else (an [HTTPException] with another status raised by the
    adapter is turned into a 500 as well); it answers 200 only with the
    truthy value that the adapter returned as the body. *)
Theorem endpoint_answers_200_or_500 :
  forall (W : Type) (parser_extract_invoice : list string -> M W value)
         (request : ImagesRequest) (st : state W),
    (status (fst (post_multiple_invoice parser_extract_invoice request st))
     = 200
     /\ exists b64 v,
          b64_image_of (image request) = Returned b64
          /\ fst (parser_extract_invoice [ b64 ] st) = Returned v
          /\ truthy v = true
          /\ body (fst (post_multiple_invoice parser_extract_invoice
                          request st)) = v)
    \/ status (fst (post_multiple_invoice parser_extract_invoice request st))
       = 500.
Proof.
  intros W p request st.
  destruct (b64_image_of_returns (image request)) as (b64 & Hr).
  rewrite (post_multiple_invoice_cases p request st Hr).
  destruct (p [ b64 ] st) as [[v|e] st'] eqn:Hp; [|now right].
  destruct (truthy v) eqn:Hv; [|now right].
  simpl. destruct (json_compliant v) eqn:Hj; [|now right].
  left. split; [reflexivity|]. exists b64, v. rewrite Hp.
  repeat split; assumption.
Qed.


(** * The client: streamlit_app.py *)

(** ** The encoder of the client and the decoder of the adapter *)

Section Base64RoundTrip.

Lemma in_all_bytes (b : Byte.byte) : In b Local.all_bytes.
Proof.
  apply in_flat_map. exists (N.to_nat (Byte.to_N b)). split.
  - apply in_seq. pose proof (Byte.to_N_bounded b). lia.
  - rewrite N2Nat.id, Byte.of_to_N. now left.
Qed.

Lemma for_all_bytes (P : Byte.byte -> bool) :
  forallb P Local.all_bytes = true -> forall b, P b = true.
Proof. intros H b. exact (proj1 (forallb_forall P Local.all_bytes) H b (in_all_bytes b)). Qed.

Lemma for_all_byte_pairs (P : Byte.byte -> Byte.byte -> bool) :
  forallb (fun b => forallb (P b) Local.all_bytes) Local.all_bytes = true ->
  forall b b', P b b' = true.
Proof.
  intros H b b'.
  apply (for_all_bytes (P b)). exact (for_all_bytes _ H b).
Qed.

Lemma group_head_checked (b1 b2 : Byte.byte) : Local.group_head_ok b1 b2 = true.
Proof. apply for_all_byte_pairs. vm_compute. reflexivity. Qed.

Lemma group_tail_checked (b2 b3 : Byte.byte) : Local.group_tail_ok b2 b3 = true.
Proof. apply for_all_byte_pairs. vm_compute. reflexivity. Qed.


Lemma digit_ok_spec (d : N) :
  Local.digit_ok d = true ->
  Ascii.eqb (Local.b64_char d) "=" = false
  /\ Stub.b64_digit (Local.b64_char d) = Some d
  /\ (N_of_ascii (Local.b64_char d) <? 128)%N = true
  /\ Ascii.eqb (Local.b64_char d) comma = false.
Proof.
  unfold Local.digit_ok. intros H.
  apply andb_true_iff in H as [H H4]. apply andb_true_iff in H as [H H3].
  apply andb_true_iff in H as [H1 H2].
  apply negb_true_iff in H1, H4.
  destruct (Stub.b64_digit (Local.b64_char d)) as [d'|]; [|discriminate].
  apply N.eqb_eq in H2. subst d'. now repeat split.
Qed.

(** One step of the decoder on a character of the alphabet. *)
Lemma a2b_base64_digit (d : N) (rest : string) (quad_pos : nat)
    (leftchar : N) (pads : nat) (out : list Byte.byte) :
  Local.digit_ok d = true ->
  Stub.a2b_base64 (String (Local.b64_char d) rest) quad_pos leftchar pads out =
  match quad_pos with
  | O => Stub.a2b_base64 rest 1%nat d 0%nat out
  | S O =>
      Stub.a2b_base64 rest 2%nat (N.land d 15) 0%nat
        (Stub.byte_of_N (N.lor (N.shiftl leftchar 2) (N.shiftr d 4)) :: out)
  | S (S O) =>
      Stub.a2b_base64 rest 3%nat (N.land d 3) 0%nat
        (Stub.byte_of_N (N.lor (N.shiftl leftchar 4) (N.shiftr d 2)) :: out)
  | _ =>
      Stub.a2b_base64 rest 0%nat 0%N 0%nat
        (Stub.byte_of_N (N.lor (N.shiftl leftchar 6) d) :: out)
  end.
Proof.
  intros H. destruct (digit_ok_spec d H) as (H1 & H2 & _).
  cbn [Stub.a2b_base64]. now rewrite H1, H2.
Qed.

Lemma group_head_spec (b1 b2 : Byte.byte) :
  Local.digit_ok (Local.sextet1 b1) = true /\ Local.digit_ok (Local.sextet2 b1 b2) = true
  /\ Stub.byte_of_N
       (N.lor (N.shiftl (Local.sextet1 b1) 2) (N.shiftr (Local.sextet2 b1 b2) 4)) = b1
  /\ N.land (Local.sextet2 b1 b2) 15 = N.shiftr (Byte.to_N b2) 4.
Proof.
  pose proof (group_head_checked b1 b2) as H. unfold Local.group_head_ok in H.
  apply andb_true_iff in H as [H H4]. apply andb_true_iff in H as [H H3].
  apply andb_true_iff in H as [H1 H2].
  apply Byte.byte_dec_bl in H3. apply N.eqb_eq in H4. now repeat split.
Qed.

Lemma group_tail_spec (b2 b3 : Byte.byte) :
  Local.digit_ok (Local.sextet3 b2 b3) = true /\ Local.digit_ok (Local.sextet4 b3) = true
  /\ Stub.byte_of_N
       (N.lor (N.shiftl (N.shiftr (Byte.to_N b2) 4) 4)
              (N.shiftr (Local.sextet3 b2 b3) 2)) = b2
  /\ Stub.byte_of_N
       (N.lor (N.shiftl (N.land (Local.sextet3 b2 b3) 3) 6) (Local.sextet4 b3)) = b3.
Proof.
  pose proof (group_tail_checked b2 b3) as H. unfold Local.group_tail_ok in H.
  apply andb_true_iff in H as [H H4]. apply andb_true_iff in H as [H H3].
  apply andb_true_iff in H as [H1 H2].
  apply Byte.byte_dec_bl in H3, H4. now repeat split.
Qed.

Lemma list_ind3 {A : Type} (P : list A -> Prop) :
  P [] -> (forall a, P [ a ]) -> (forall a b, P [ a; b ]) ->
  (forall a b c l, P l -> P (a :: b :: c :: l)) ->
  forall l, P l.
Proof.
  intros H0 H1 H2 H3 l.
  enough (H : P l /\ (forall a, P (a :: l)) /\ forall a b, P (a :: b :: l))
    by apply H.
  induction l as [|x l (IH0 & IH1 & IH2)]; repeat split; auto.
Qed.

Lemma a2b_base64_b64encode (data : list Byte.byte) :
  forall out,
    Stub.a2b_base64 (Local.b64encode data) 0%nat 0%N 0%nat out = Returned (rev out ++ data)%list.
Proof.
  induction data as [|b1|b1 b2|b1 b2 b3 rest IH] using list_ind3; intros out.
  - simpl. now rewrite app_nil_r.
  - destruct (group_head_spec b1 Byte.x00) as (H1 & H2 & E1 & _).
    cbn [Local.b64encode].
    rewrite (a2b_base64_digit _ _ _ _ _ _ H1), (a2b_base64_digit _ _ _ _ _ _ H2).
    rewrite E1. simpl. now rewrite <- ?app_assoc.
  - destruct (group_head_spec b1 b2) as (H1 & H2 & E1 & E2).
    destruct (group_tail_spec b2 Byte.x00) as (H3 & _ & E3 & _).
    cbn [Local.b64encode].
    rewrite (a2b_base64_digit _ _ _ _ _ _ H1), (a2b_base64_digit _ _ _ _ _ _ H2),
      (a2b_base64_digit _ _ _ _ _ _ H3).
    rewrite E1, E2, E3. simpl. now rewrite <- ?app_assoc.
  - destruct (group_head_spec b1 b2) as (H1 & H2 & E1 & E2).
    destruct (group_tail_spec b2 b3) as (H3 & H4 & E3 & E4).
    cbn [Local.b64encode].
    rewrite (a2b_base64_digit _ _ _ _ _ _ H1), (a2b_base64_digit _ _ _ _ _ _ H2),
      (a2b_base64_digit _ _ _ _ _ _ H3), (a2b_base64_digit _ _ _ _ _ _ H4).
    rewrite E1, E2, E3, E4, IH. simpl. now rewrite <- ?app_assoc.
Qed.

(** Every character of an encoding is ASCII and none is a comma. *)
Lemma b64encode_alphabet (data : list Byte.byte) :
  Stub.isascii (Local.b64encode data) = true
  /\ contains comma (Local.b64encode data) = false.
Proof.
  induction data as [|b1|b1 b2|b1 b2 b3 rest [IH1 IH2]] using list_ind3.
  - now split.
  - destruct (group_head_spec b1 Byte.x00) as (H1 & H2 & _).
    destruct (digit_ok_spec _ H1) as (_ & _ & A1 & C1).
    destruct (digit_ok_spec _ H2) as (_ & _ & A2 & C2).
    cbn [Local.b64encode Stub.isascii contains]. rewrite A1, A2, C1, C2. now split.
  - destruct (group_head_spec b1 b2) as (H1 & H2 & _).
    destruct (group_tail_spec b2 Byte.x00) as (H3 & _).
    destruct (digit_ok_spec _ H1) as (_ & _ & A1 & C1).
    destruct (digit_ok_spec _ H2) as (_ & _ & A2 & C2).
    destruct (digit_ok_spec _ H3) as (_ & _ & A3 & C3).
    cbn [Local.b64encode Stub.isascii contains].
    rewrite A1, A2, A3, C1, C2, C3. now split.
  - destruct (group_head_spec b1 b2) as (H1 & H2 & _).
    destruct (group_tail_spec b2 b3) as (H3 & H4 & _).
    destruct (digit_ok_spec _ H1) as (_ & _ & A1 & C1).
    destruct (digit_ok_spec _ H2) as (_ & _ & A2 & C2).
    destruct (digit_ok_spec _ H3) as (_ & _ & A3 & C3).
    destruct (digit_ok_spec _ H4) as (_ & _ & A4 & C4).
    cbn [Local.b64encode Stub.isascii contains].
    rewrite A1, A2, A3, A4, C1, C2, C3, C4, IH1, IH2. now split.
Qed.

Lemma b64decode_b64encode (data : list Byte.byte) :
  Stub.b64decode (Local.b64encode data) = Returned data.
Proof.
  unfold Stub.b64decode.
  rewrite (proj1 (b64encode_alphabet data)).
  now rewrite a2b_base64_b64encode.
Qed.

End Base64RoundTrip.

(** ** From the upload to the model *)

Lemma payload_b64_image {Net F : Type} (ui : Desktop Net F)
    (img_bytes : list Byte.byte) :
  contains comma (b64encode_decode ui img_bytes) = false ->
  b64_image_of (image (payload ui img_bytes))
  = Returned (b64encode_decode ui img_bytes).
Proof.
  intros H.
  exact (b64_image_of_payload "data:image/jpeg;base64" _ H).
Qed.

Lemma process_invoice_cases {W : Type}
    (parser_extract_invoice : list string -> M W value)
    (request : ImagesRequest) (b64 : string) (st : state W) :
  b64_image_of (image request) = Returned b64 ->
  process_invoice parser_extract_invoice request st =
    match parser_extract_invoice [ b64 ] st with
    | (Returned v, st') =>
        if truthy v then (Returned v, st')
        else (Raised (HTTPException 500 "Internal server error"), st')
    | (Raised _, st') =>
        (Raised (HTTPException 500 "Internal server error"), st')
    end.
Proof.
  intros Hb.
  unfold process_invoice, processing_block, try_except, bind, lift.
  rewrite Hb.
  destruct (parser_extract_invoice [ b64 ] st) as [[v|e] st']; [|reflexivity].
  destruct (truthy v); reflexivity.
Qed.

Lemma extract_invoice_request_sent {W : Type} (env : Environment W)
    (self : InvoiceParser) (b64_images : list string)
    (parts : list genai.Part) (st : state W) :
  decode_images env b64_images = Returned parts ->
  calls (snd (extract_invoice env self b64_images st))
  = ContentRequested (request_of self parts) :: calls st.
Proof.
  intros Hd.
  unfold extract_invoice, try_or_return_None, lift, call_generate_content.
  rewrite Hd.
  destruct (models_generate_content _ _ _ _) as [[response|e] w];
    [|reflexivity].
  destruct (genai.text response) as [reply|]; [|reflexivity].
  destruct (truthy (parse_json env reply)); reflexivity.
Qed.

(** X12. The bytes of the uploaded file reach the model as they are:
    when the encoder of the client gives a text without a comma that the
    decoder of the adapter turns back into the bytes, the endpoint strips
    the [data:image/jpeg;base64,] prefix of the payload and the one request
    sent to the service holds exactly the uploaded bytes, as a single
    image/jpeg part followed by the empty prompt. *)
Theorem upload_reaches_the_model :
  forall (W Net F : Type) (env : Environment W) (ui : Desktop Net F)
         (self : InvoiceParser) (img_bytes : list Byte.byte) (st : state W),
    contains comma (b64encode_decode ui img_bytes) = false ->
    base64_b64decode env (b64encode_decode ui img_bytes)
    = Returned img_bytes ->
    b64_image_of (image (payload ui img_bytes))
    = Returned (b64encode_decode ui img_bytes)
    /\ calls (snd (post_multiple_invoice (extract_invoice env self)
                     (payload ui img_bytes) st))
       = ContentRequested
           {| genai.model := model self;
              genai.contents :=
                [ {| genai.role := "user";
                     genai.parts :=
                       [ genai.from_bytes "image/jpeg" img_bytes;
                         genai.from_text EmptyString ] |} ];
              genai.config := generate_content_config |}
         :: calls st.
Proof.
  intros W Net F env ui self img_bytes st Hc Hd.
  pose proof (payload_b64_image ui img_bytes Hc) as Hb.
  split; [exact Hb|].
  assert (Hparts : decode_images env [ b64encode_decode ui img_bytes ]
                   = Returned [ genai.from_bytes "image/jpeg" img_bytes ]).
  { unfold decode_images. simpl. now rewrite Hd. }
  pose proof (extract_invoice_request_sent env self _ st Hparts) as Hs.
  unfold post_multiple_invoice.
  rewrite (process_invoice_cases _ _ st Hb).
  destruct (extract_invoice env self [ b64encode_decode ui img_bytes ] st)
    as [[v|e] st'].
  - simpl in Hs. destruct (truthy v); exact Hs.
  - exact Hs.
Qed.

(** X13. With the standard base64 encoder on the side of the client and
    the standard decoder on the side of the adapter, this holds for every
    file: decoding the encoded bytes gives the bytes back, the encoding
    has no comma, and the request sent to the service holds the uploaded
    bytes. *)
Theorem every_upload_reaches_the_model :
  forall (F : Type) (libs : Desktop (state nat) F)
         (environ : string -> option string)
         (reply : nat -> genai.GenerateContentRequest ->
                  outcome genai.GenerateContentResponse)
         (self : InvoiceParser) (img_bytes : list Byte.byte)
         (st : state nat),
    Stub.b64decode (Local.b64encode img_bytes) = Returned img_bytes
    /\ contains comma (Local.b64encode img_bytes) = false
    /\ calls (snd (post_multiple_invoice
                     (extract_invoice (Stub.env environ reply) self)
                     (payload
                        (Local.desktop
                           (extract_invoice (Stub.env environ reply) self)
                           libs)
                        img_bytes) st))
       = ContentRequested
           (request_of self [ genai.from_bytes "image/jpeg" img_bytes ])
         :: calls st.
Proof.
  intros F libs environ reply self img_bytes st.
  pose proof (b64decode_b64encode img_bytes) as Hd.
  destruct (b64encode_alphabet img_bytes) as [_ Hc].
  split; [exact Hd|]. split; [exact Hc|].
  set (env := Stub.env environ reply).
  set (ui := Local.desktop (extract_invoice env self) libs).
  assert (Hb : b64_image_of (image (payload ui img_bytes))
               = Returned (Local.b64encode img_bytes))
    by exact (payload_b64_image ui img_bytes Hc).
  assert (Hparts : decode_images env [ Local.b64encode img_bytes ]
                   = Returned [ genai.from_bytes "image/jpeg" img_bytes ]).
  { unfold decode_images. simpl. now rewrite Hd. }
  pose proof (extract_invoice_request_sent env self _ st Hparts) as Hs.
  unfold post_multiple_invoice.
  rewrite (process_invoice_cases _ _ st Hb).
  destruct (extract_invoice env self [ Local.b64encode img_bytes ] st)
    as [[v|e] st'].
  - simpl in Hs. destruct (truthy v); exact Hs.
  - exact Hs.
Qed.

(** ** What the page shows *)

(** X14. When the post raises (no connection, time-out) or the response
    has a status from 400 to 599, whatever its body, the page shows one
    error message and nothing else: no details, no table, no image. *)
Theorem failed_request_shows_only_an_error :
  forall (Net F : Type) (ui : Desktop Net F) (img_bytes : list Byte.byte)
         (o : outcome requests.Response) (net net' : Net),
    requests_post ui api_url (payload ui img_bytes) 60 net = (o, net') ->
    (is_raised o = true
     \/ exists r, o = Returned r
                  /\ 400 <= requests.status_code r < 600) ->
    exists msg,
      on_upload ui (Some img_bytes) net
      = ({| above := [ st_error ("Error during processing: " ++ msg) ];
            col1 := []; col2 := []; uncaught := None |},
         net').
Proof.
  intros Net F ui img_bytes o net net' Hp Ho.
  unfold on_upload, fetch_data. rewrite Hp.
  destruct Ho as [Ho|(r & -> & Hlo & Hhi)].
  - destruct o as [r|e]; [discriminate|]. simpl. eauto.
  - simpl. unfold requests.raise_for_status.
    destruct ((400 <=? requests.status_code r)
              && (requests.status_code r <? 500)) eqn:H4; simpl; [eauto|].
    destruct ((500 <=? requests.status_code r)
              && (requests.status_code r <? 600)) eqn:H5; simpl; [eauto|].
    exfalso.
    apply andb_false_iff in H4, H5.
    rewrite Z.leb_gt, Z.ltb_ge in H4, H5. lia.
Qed.

Section LocalServer.

Context {W F : Type} (parser_extract_invoice : list string -> M W value)
        (libs : Desktop (state W) F).

Local Abbreviation ui := (Local.desktop parser_extract_invoice libs).

Lemma local_b64_image (img_bytes : list Byte.byte) :
  b64_image_of (image (payload ui img_bytes))
  = Returned (Local.b64encode img_bytes).
Proof.
  apply (payload_b64_image ui). apply b64encode_alphabet.
Qed.

(** The page after a post to the local server, by what the adapter did. *)
Lemma on_upload_local (img_bytes : list Byte.byte) (st : state W) :
  on_upload ui (Some img_bytes) st =
    let (o, st') := process_invoice parser_extract_invoice
                      (payload ui img_bytes) st in
    match
      obind (requests.raise_for_status (Local.on_the_wire o)) (fun _ =>
      obind (requests.json (Local.on_the_wire o)) (fun body =>
      method_get body "data" (PyDict [])))
    with
    | Raised e =>
        ({| above :=
              [ st_error ("Error during processing: " ++ str_exception e) ];
            col1 := []; col2 := []; uncaught := None |},
         st')
    | Returned data =>
        match invoice_details ui data with
        | (shown, Some e) =>
            ({| above := []; col1 := shown; col2 := [];
                uncaught := Some e |},
             st')
        | (shown, None) =>
            ({| above := []; col1 := shown;
                col2 := fst (invoice_image ui img_bytes);
                uncaught := snd (invoice_image ui img_bytes) |},
             st')
        end
    end.
Proof.
  unfold on_upload, fetch_data. simpl requests_post. unfold Local.post.
  destruct (process_invoice parser_extract_invoice (payload ui img_bytes) st)
    as [o st'].
  reflexivity.
Qed.

End LocalServer.

(** X15. Against the endpoint itself, every request that is not answered
    with a 200 leaves the same page, whatever went wrong (image, service,
    reply): the one message of a 500, and nothing of the invoice. *)
Theorem every_failure_shows_the_same_error :
  forall (W F : Type) (parser_extract_invoice : list string -> M W value)
         (libs : Desktop (state W) F)
         (img_bytes : list Byte.byte) (st : state W),
    status (fst (post_multiple_invoice parser_extract_invoice
                   (payload (Local.desktop parser_extract_invoice libs)
                      img_bytes)
                   st)) <> 200 ->
    fst (on_upload (Local.desktop parser_extract_invoice libs)
           (Some img_bytes) st)
    = {| above :=
           [ st_error
               "Error during processing: 500 Server Error: Internal Server Error for url: http://localhost:8000/api/multiple-invoice" ];
         col1 := []; col2 := []; uncaught := None |}.
Proof.
  intros W F p libs img_bytes st.
  rewrite on_upload_local. unfold post_multiple_invoice.
  rewrite (process_invoice_cases p _ st (local_b64_image p libs img_bytes)).
  destruct (p [ Local.b64encode img_bytes ] st) as [[v|e] st'];
    [|reflexivity].
  destruct (truthy v); [|reflexivity].
  simpl. unfold Local.on_the_wire, requests.raise_for_status. simpl.
  destruct (json_compliant v); simpl; [congruence|reflexivity].
Qed.

(** The page once the adapter has returned a truthy value that the JSON
    encoder of the response accepts: the endpoint answers 200 with it, and
    the script goes on with its [data]. *)
Lemma on_upload_success {W F : Type}
    (parser_extract_invoice : list string -> M W value)
    (libs : Desktop (state W) F) (img_bytes : list Byte.byte) (v : value)
    (st st' : state W) :
  parser_extract_invoice [ Local.b64encode img_bytes ] st
  = (Returned v, st') ->
  truthy v = true ->
  json_compliant v = true ->
  status (fst (post_multiple_invoice parser_extract_invoice
                 (payload (Local.desktop parser_extract_invoice libs)
                    img_bytes) st)) = 200
  /\ on_upload (Local.desktop parser_extract_invoice libs) (Some img_bytes) st
     = match method_get v "data" (PyDict []) with
       | Raised e =>
           ({| above :=
                 [ st_error
                     ("Error during processing: " ++ str_exception e) ];
               col1 := []; col2 := []; uncaught := None |},
            st')
       | Returned data =>
           match invoice_details
                   (Local.desktop parser_extract_invoice libs) data with
           | (shown, Some e) =>
               ({| above := []; col1 := shown; col2 := [];
                   uncaught := Some e |},
                st')
           | (shown, None) =>
               ({| above := []; col1 := shown;
                   col2 :=
                     fst (invoice_image
                            (Local.desktop parser_extract_invoice libs)
                            img_bytes);
                   uncaught :=
                     snd (invoice_image
                            (Local.desktop parser_extract_invoice libs)
                            img_bytes) |},
                st')
           end
       end.
Proof.
  intros Hp Ht Hj. split.
  - rewrite (post_multiple_invoice_cases _ _ st
               (local_b64_image parser_extract_invoice libs img_bytes)),
      Hp, Ht.
    unfold fastapi_response. now rewrite Hj.
  - rewrite on_upload_local.
    rewrite (process_invoice_cases _ _ st
               (local_b64_image parser_extract_invoice libs img_bytes)),
      Hp, Ht.
    unfold Local.on_the_wire, requests.raise_for_status, fastapi_response.
    rewrite Hj. reflexivity.
Qed.

(** X16. When the adapter returns a non-empty object that has no key
    [data], such as a bare invoice with its date and products at the top,
    and the JSON encoder of the response accepts it (no float that is not
    finite), the endpoint answers 200 and the first column shows an empty
    invoice: the date [-] and "No products found.".  The second column
    shows the uploaded file when [st.image] can read it; when it cannot,
    its exception ends the script after the heading of that column. *)
Theorem object_without_data_shows_an_empty_invoice :
  forall (W F : Type) (parser_extract_invoice : list string -> M W value)
         (libs : Desktop (state W) F)
         (img_bytes : list Byte.byte) (entries : list (string * value))
         (st st' : state W),
    parser_extract_invoice [ Local.b64encode img_bytes ] st
    = (Returned (PyDict entries), st') ->
    entries <> [] ->
    json_compliant (PyDict entries) = true ->
    dict_get "data" entries = None ->
    status (fst (post_multiple_invoice parser_extract_invoice
                   (payload (Local.desktop parser_extract_invoice libs)
                      img_bytes)
                   st)) = 200
    /\ on_upload (Local.desktop parser_extract_invoice libs)
         (Some img_bytes) st
       = ({| above := [];
             col1 := [ st_markdown section_open true;
                       st_subheader "Invoice Details";
                       st_markdown "**Date:** -" false;
                       st_write "No products found.";
                       st_markdown "</div>" true ];
             col2 :=
               match st_image_call libs img_bytes with
               | Returned _ =>
                   [ st_markdown section_open true;
                     st_subheader "Invoice Image";
                     st_image img_bytes true;
                     st_markdown "</div>" true ]
               | Raised _ =>
                   [ st_markdown section_open true;
                     st_subheader "Invoice Image" ]
               end;
             uncaught :=
               match st_image_call libs img_bytes with
               | Returned _ => None
               | Raised e => Some e
               end |},
          st').
Proof.
  intros W F p libs img_bytes entries st st' Hp Hne Hj Hd.
  assert (Ht : truthy (PyDict entries) = true)
    by (destruct entries; [contradiction|reflexivity]).
  destruct (on_upload_success p libs img_bytes st Hp Ht Hj) as [H200 Hpage].
  split; [exact H200|].
  rewrite Hpage. simpl. rewrite Hd.
  unfold invoice_image. simpl.
  destruct (st_image_call libs img_bytes); reflexivity.
Qed.

(** X17. When the adapter returns an object whose [data] is an object,
    and the JSON encoder of the response accepts it, the endpoint answers
    200 and the first column shows the date of [data] ([-] when it has
    none, otherwise as [str] prints it) and then: "No products found."
    when the [products] of [data] are missing or empty; a table built by
    pandas from exactly these products, with the six columns renamed, when
    pandas accepts them; nothing more when it does not, the exception of
    pandas ending the script.  The second column follows only when the
    first was completed, and is cut short by an exception of [st.image]. *)
Theorem wrapped_invoice_is_shown :
  forall (W F : Type) (parser_extract_invoice : list string -> M W value)
         (libs : Desktop (state W) F)
         (img_bytes : list Byte.byte) (entries data : list (string * value))
         (st st' : state W),
    parser_extract_invoice [ Local.b64encode img_bytes ] st
    = (Returned (PyDict entries), st') ->
    json_compliant (PyDict entries) = true ->
    dict_get "data" entries = Some (PyDict data) ->
    status (fst (post_multiple_invoice parser_extract_invoice
                   (payload (Local.desktop parser_extract_invoice libs)
                      img_bytes)
                   st)) = 200
    /\ on_upload (Local.desktop parser_extract_invoice libs)
         (Some img_bytes) st
       = (let invoice_date :=
            match dict_get "date" data with
            | Some d => d
            | None => PyStr "-"
            end in
          let products :=
            match dict_get "products" data with
            | Some ps => ps
            | None => PyList []
            end in
          let heading :=
            [ st_markdown section_open true;
              st_subheader "Invoice Details";
              st_markdown
                ("**Date:** " ++ format_value (repr libs) invoice_date)
                false ] in
          let image_column :=
            match st_image_call libs img_bytes with
            | Returned _ =>
                [ st_markdown section_open true;
                  st_subheader "Invoice Image";
                  st_image img_bytes true;
                  st_markdown "</div>" true ]
            | Raised _ =>
                [ st_markdown section_open true;
                  st_subheader "Invoice Image" ]
            end in
          let image_exception :=
            match st_image_call libs img_bytes with
            | Returned _ => None
            | Raised e => Some e
            end in
          if truthy products then
            match pd_DataFrame libs products with
            | Returned df =>
                {| above := [];
                   col1 :=
                     (heading
                      ++ [ st_dataframe (DataFrame_rename libs df columns)
                             true;
                           st_markdown "</div>" true ])%list;
                   col2 := image_column;
                   uncaught := image_exception |}
            | Raised e =>
                {| above := []; col1 := heading; col2 := [];
                   uncaught := Some e |}
            end
          else
            {| above := [];
               col1 :=
                 (heading ++ [ st_write "No products found.";
                               st_markdown "</div>" true ])%list;
               col2 := image_column;
               uncaught := image_exception |},
          st').
Proof.
  intros W F p libs img_bytes entries data st st' Hp Hj Hd.
  assert (Ht : truthy (PyDict entries) = true)
    by (destruct entries; [discriminate|reflexivity]).
  destruct (on_upload_success p libs img_bytes st Hp Ht Hj) as [H200 Hpage].
  split; [exact H200|].
  rewrite Hpage. simpl. rewrite Hd.
  unfold invoice_details, invoice_image. simpl.
  destruct (truthy match dict_get "products" data with
                   | Some ps => ps
                   | None => PyList []
                   end).
  - destruct (pd_DataFrame libs _); [|reflexivity].
    destruct (st_image_call libs img_bytes); reflexivity.
  - destruct (st_image_call libs img_bytes); reflexivity.
Qed.

(** X18. When the adapter returns an object whose [data] is not an object
    (a [null], a list, a string, a number), and the JSON encoder of the
    response accepts it (no float that is not finite), the endpoint
    answers 200 and the script ends on line 90 with an AttributeError that
    nothing catches: the heading of the details is on the page, and
    neither the date nor the image. *)
Theorem data_that_is_no_object_ends_the_script :
  forall (W F : Type) (parser_extract_invoice : list string -> M W value)
         (libs : Desktop (state W) F)
         (img_bytes : list Byte.byte) (entries : list (string * value))
         (data : value) (st st' : state W),
    parser_extract_invoice [ Local.b64encode img_bytes ] st
    = (Returned (PyDict entries), st') ->
    json_compliant (PyDict entries) = true ->
    dict_get "data" entries = Some data ->
    (forall d, data <> PyDict d) ->
    status (fst (post_multiple_invoice parser_extract_invoice
                   (payload (Local.desktop parser_extract_invoice libs)
                      img_bytes)
                   st)) = 200
    /\ on_upload (Local.desktop parser_extract_invoice libs)
         (Some img_bytes) st
       = ({| above := [];
             col1 := [ st_markdown section_open true;
                       st_subheader "Invoice Details" ];
             col2 := [];
             uncaught :=
               Some (OtherException "AttributeError"
                       ("'" ++ type_name data
                        ++ "' object has no attribute 'get'")) |},
          st').
Proof.
  intros W F p libs img_bytes entries data st st' Hp Hj Hd Hnd.
  assert (Ht : truthy (PyDict entries) = true)
    by (destruct entries; [discriminate|reflexivity]).
  destruct (on_upload_success p libs img_bytes st Hp Ht Hj) as [H200 Hpage].
  split; [exact H200|].
  rewrite Hpage. simpl. rewrite Hd.
  destruct data as [| | | | | |d]; try reflexivity.
  now destruct (Hnd d).
Qed.

(** X19. When the adapter returns a truthy value that is not an object (a
    list, a string, a number) and that the JSON encoder of the response
    accepts (no float that is not finite), the endpoint answers 200 with
    it and the page shows an error: the AttributeError of [.get] on line
    78 is caught by the [except] of line 79. *)
Theorem body_that_is_no_object_shows_an_error :
  forall (W F : Type) (parser_extract_invoice : list string -> M W value)
         (libs : Desktop (state W) F)
         (img_bytes : list Byte.byte) (v : value) (st st' : state W),
    parser_extract_invoice [ Local.b64encode img_bytes ] st
    = (Returned v, st') ->
    truthy v = true ->
    json_compliant v = true ->
    (forall entries, v <> PyDict entries) ->
    status (fst (post_multiple_invoice parser_extract_invoice
                   (payload (Local.desktop parser_extract_invoice libs)
                      img_bytes)
                   st)) = 200
    /\ on_upload (Local.desktop parser_extract_invoice libs)
         (Some img_bytes) st
       = ({| above :=
               [ st_error
                   ("Error during processing: '" ++ type_name v
                    ++ "' object has no attribute 'get'") ];
             col1 := []; col2 := []; uncaught := None |},
          st').
Proof.
  intros W F p libs img_bytes v st st' Hp Ht Hj Hnd.
  destruct (on_upload_success p libs img_bytes st Hp Ht Hj) as [H200 Hpage].
  split; [exact H200|].
  rewrite Hpage.
  destruct v as [| | | | | |d]; try reflexivity.
  now destruct (Hnd d).
Qed.

(** ** The header animation *)

Lemma load_lottie_url_body_returns {Net F : Type} (ui : Desktop Net F)
    (url : string) (net : Net) :
  load_lottie_url_body ui url net
  = (Returned
       match fst (requests_get ui url net) with
       | Returned r =>
           if requests.status_code r =? 200 then
             match requests.json r with
             | Returned animation => animation
             | Raised _ => PyNone
             end
           else PyNone
       | Raised _ => PyNone
       end,
     snd (requests_get ui url net)).
Proof.
  unfold load_lottie_url_body.
  destruct (requests_get ui url net) as [[r|e] net']; simpl; [|reflexivity].
  destruct (requests.status_code r =? 200); simpl; [|reflexivity].
  destruct (requests.json r); reflexivity.
Qed.

(** X20. [load_lottie_url] never raises, and it asks the network at most
    once for a URL.  With nothing kept for the URL it makes the GET and
    returns the decoded body when the request returned, the status is
    exactly 200 and the body decodes, and [None] in every other case (an
    exception of the request, another status, a body that does not
    decode); the result, a [None] included, is kept.  With a value kept for
    the URL it returns that value and leaves the network alone, so every
    later call returns what the first returned.  The header shows the
    animation only when the result is truthy. *)
Theorem load_lottie_url_asks_once :
  forall (Net F : Type) (ui : Desktop Net F) (url : string)
         (cache : list (string * value)) (net : Net),
  exists v cache' net',
    load_lottie_url ui url cache net = (Returned v, cache', net')
    /\ match dict_get url cache with
       | Some kept => v = kept /\ cache' = cache /\ net' = net
       | None =>
           v = match fst (requests_get ui url net) with
               | Returned r =>
                   if requests.status_code r =? 200 then
                     match requests.json r with
                     | Returned animation => animation
                     | Raised _ => PyNone
                     end
                   else PyNone
               | Raised _ => PyNone
               end
           /\ cache' = (url, v) :: cache
           /\ net' = snd (requests_get ui url net)
       end
    /\ (forall later : Net,
          load_lottie_url ui url cache' later = (Returned v, cache', later))
    /\ (url = lottie_url ->
        header ui cache net
        = (Returned (if truthy v
                     then [ st_lottie v 200 "header_anim" ]
                     else []),
           cache', net')).
Proof.
  intros Net F ui url cache net.
  unfold load_lottie_url at 1.
  destruct (dict_get url cache) as [kept|] eqn:Hc.
  - exists kept, cache, net. split; [reflexivity|]. split; [now repeat split|].
    split.
    + intros later. unfold load_lottie_url. now rewrite Hc.
    + intros ->. unfold header, load_lottie_url. now rewrite Hc.
  - rewrite load_lottie_url_body_returns.
    eexists. eexists. eexists. split; [reflexivity|].
    split; [now repeat split|]. split.
    + intros later. unfold load_lottie_url. simpl.
      now rewrite String.eqb_refl.
    + intros ->. unfold header, load_lottie_url. rewrite Hc.
      now rewrite load_lottie_url_body_returns.
Qed.

(** ** Runs of the further properties *)

Example one_product_reply_matches_the_schema :
  Stub.loads Local.one_product_reply
  = Returned
      (PyDict [ ("data", PyDict [ ("date", PyStr "01-01-2024");
                                  ("products", PyList [ Local.one_product ]) ]) ])
  /\ Pydantic.matches InvoiceResponse
       (PyDict [ ("data", PyDict [ ("date", PyStr "01-01-2024");
                                   ("products", PyList [ Local.one_product ]) ]) ])
     = true.
Proof. split; vm_compute; reflexivity. Qed.

Example upload_is_AAAA : Local.b64encode Local.upload = "AAAA".
Proof. reflexivity. Qed.

Lemma service_failure_witness :
  extract_invoice
    (Stub.env Stub.environ_with_key
       (fun _ _ => Raised (OtherException "ServerError" "503 UNAVAILABLE")))
    Stub.parser [ "AAAA" ] Stub.boot
  = (Returned PyNone, Stub.served_once)
  /\ fst (post_multiple_invoice
            (extract_invoice
               (Stub.env Stub.environ_with_key
                  (fun _ _ =>
                     Raised (OtherException "ServerError" "503 UNAVAILABLE")))
               Stub.parser)
            {| image := "data:image/jpeg;base64,AAAA" |} Stub.boot)
     = error_response 500 "Internal server error".
Proof.
  apply (@service_failure_is_a_failure nat
           (Stub.env Stub.environ_with_key
              (fun _ _ =>
                 Raised (OtherException "ServerError" "503 UNAVAILABLE")))
           Stub.parser {| image := "data:image/jpeg;base64,AAAA" |} "AAAA"
           [ genai.from_bytes "image/jpeg" [ Byte.x00; Byte.x00; Byte.x00 ] ]
           (OtherException "ServerError" "503 UNAVAILABLE") 1%nat Stub.boot);
    reflexivity.
Defined.

Lemma reply_without_text_witness :
  fst (extract_invoice
         (Stub.env Stub.environ_with_key
            (fun _ _ => Returned {| genai.text := None |}))
         Stub.parser [ "AAAA" ] Stub.boot)
  = Returned PyNone
  /\ fst (post_multiple_invoice
            (extract_invoice
               (Stub.env Stub.environ_with_key
                  (fun _ _ => Returned {| genai.text := None |}))
               Stub.parser)
            {| image := "AAAA" |} Stub.boot)
     = error_response 500 "Internal server error".
Proof.
  apply (@reply_without_text_is_a_failure nat
           (Stub.env Stub.environ_with_key
              (fun _ _ => Returned {| genai.text := None |}))
           Stub.parser {| image := "AAAA" |} "AAAA"
           [ genai.from_bytes "image/jpeg" [ Byte.x00; Byte.x00; Byte.x00 ] ]
           {| genai.text := None |} 1%nat Stub.boot);
    reflexivity.
Defined.

Lemma initialized_parser_witness :
  __init__ (Stub.answering EmptyString) (Some "argument-key") "gemini-pro"
    Stub.boot
  = (Returned {| api_key := "argument-key";
                 client := {| genai.client_api_key := "argument-key" |};
                 model := "gemini-pro" |},
     {| service := O; calls := [ ClientCreated "argument-key" ] |})
  /\ api_key {| api_key := "argument-key";
                client := {| genai.client_api_key := "argument-key" |};
                model := "gemini-pro" |}
     <> EmptyString.
Proof.
  split; [reflexivity|].
  apply (@initialized_parser_has_a_key nat (Stub.answering EmptyString)
           (Some "argument-key") "gemini-pro"
           {| api_key := "argument-key";
              client := {| genai.client_api_key := "argument-key" |};
              model := "gemini-pro" |}
           Stub.boot
           {| service := O; calls := [ ClientCreated "argument-key" ] |}).
  reflexivity.
Defined.

Lemma empty_api_key_witness :
  __init__ (Stub.env (fun _ => Some EmptyString) (Stub.says EmptyString))
    (Some EmptyString) "gemini-2.5-flash" Stub.boot
  = (Raised (ValueError "Gemini API key not provided"), Stub.boot).
Proof.
  apply (@empty_api_key_is_missing nat
           (Stub.env (fun _ => Some EmptyString) (Stub.says EmptyString))
           (Some EmptyString) "gemini-2.5-flash" Stub.boot).
  - right. reflexivity.
  - right. reflexivity.
Defined.

Lemma client_failure_witness :
  __init__
    {| os_environ_get := Stub.environ_with_key;
       base64_b64decode := Stub.b64decode;
       json_repair_loads := Stub.loads;
       genai_Client := fun _ => Raised (ValueError "invalid client options");
       models_generate_content :=
         fun _ rq served => (Stub.says EmptyString served rq, S served) |}
    None "gemini-2.5-flash" Stub.boot
  = (Raised (ValueError "invalid client options"),
     {| service := O; calls := [ ClientCreated "test-key" ] |}).
Proof.
  apply (@client_failure_is_raised_again nat
           {| os_environ_get := Stub.environ_with_key;
              base64_b64decode := Stub.b64decode;
              json_repair_loads := Stub.loads;
              genai_Client :=
                fun _ => Raised (ValueError "invalid client options");
              models_generate_content :=
                fun _ rq served =>
                  (Stub.says EmptyString served rq, S served) |}
           None "gemini-2.5-flash" "t"%char "est-key"
           (ValueError "invalid client options") Stub.boot);
    reflexivity.
Defined.


Lemma upload_reaches_the_model_witness :
  b64_image_of
    (image (payload (Local.desktop Stub.crashing_parser Local.libraries)
              Local.upload))
  = Returned "AAAA"
  /\ calls (snd (post_multiple_invoice
                   (extract_invoice (Stub.answering EmptyString) Stub.parser)
                   (payload
                      (Local.desktop Stub.crashing_parser Local.libraries)
                      Local.upload)
                   Stub.boot))
     = [ ContentRequested
           {| genai.model := "gemini-2.5-flash";
              genai.contents :=
                [ {| genai.role := "user";
                     genai.parts :=
                       [ genai.from_bytes "image/jpeg" Local.upload;
                         genai.from_text EmptyString ] |} ];
              genai.config := generate_content_config |} ].
Proof.
  apply (@upload_reaches_the_model nat (state nat) Local.frame
           (Stub.answering EmptyString)
           (Local.desktop Stub.crashing_parser Local.libraries)
           Stub.parser Local.upload Stub.boot);
    reflexivity.
Defined.

Lemma failed_request_witness :
  exists msg,
    on_upload (Local.desktop Stub.crashing_parser Local.libraries)
      (Some Local.upload) Stub.boot
    = ({| above := [ st_error ("Error during processing: " ++ msg) ];
          col1 := []; col2 := []; uncaught := None |},
       Stub.boot).
Proof.
  apply (@failed_request_shows_only_an_error (state nat) Local.frame
           (Local.desktop Stub.crashing_parser Local.libraries) Local.upload
           (Returned
              (Local.on_the_wire
                 (Raised (HTTPException 500 "Internal server error"))))
           Stub.boot Stub.boot).
  - reflexivity.
  - right. eexists. split; [reflexivity|]. simpl. lia.
Defined.

Lemma every_failure_witness :
  fst (on_upload
         (Local.desktop
            (extract_invoice (Stub.answering EmptyString) Stub.parser)
            Local.libraries)
         (Some Local.upload) Stub.boot)
  = {| above :=
         [ st_error
             "Error during processing: 500 Server Error: Internal Server Error for url: http://localhost:8000/api/multiple-invoice" ];
       col1 := []; col2 := []; uncaught := None |}.
Proof.
  apply (@every_failure_shows_the_same_error nat Local.frame
           (extract_invoice (Stub.answering EmptyString) Stub.parser)
           Local.libraries Local.upload Stub.boot).
  vm_compute. discriminate.
Defined.

(** Three zero bytes are no image: the first column is shown and
    [st.image] ends the script in the second. *)
Lemma object_without_data_witness :
  on_upload
    (Local.desktop
       (extract_invoice (Stub.answering Stub.strict_reply) Stub.parser)
       Local.libraries)
    (Some Local.upload) Stub.boot
  = ({| above := [];
        col1 := [ st_markdown section_open true;
                  st_subheader "Invoice Details";
                  st_markdown "**Date:** -" false;
                  st_write "No products found.";
                  st_markdown "</div>" true ];
        col2 := [ st_markdown section_open true;
                  st_subheader "Invoice Image" ];
        uncaught :=
          Some (OtherException "UnidentifiedImageError"
                  "cannot identify image file") |},
     Stub.served_once).
Proof.
  apply (@object_without_data_shows_an_empty_invoice nat Local.frame
           (extract_invoice (Stub.answering Stub.strict_reply) Stub.parser)
           Local.libraries Local.upload
           [ ("date", PyStr "01-01-2024"); ("products", PyList []) ]
           Stub.boot Stub.served_once).
  - reflexivity.
  - discriminate.
  - reflexivity.
  - reflexivity.
Defined.

Lemma wrapped_invoice_witness :
  on_upload
    (Local.desktop
       (extract_invoice (Stub.answering Local.one_product_reply) Stub.parser)
       Local.libraries)
    (Some Local.tiny_png) Stub.boot
  = ({| above := [];
        col1 := [ st_markdown section_open true;
                  st_subheader "Invoice Details";
                  st_markdown "**Date:** 01-01-2024" false;
                  st_dataframe (PyList [ Local.one_product ], columns) true;
                  st_markdown "</div>" true ];
        col2 := [ st_markdown section_open true;
                  st_subheader "Invoice Image";
                  st_image Local.tiny_png true;
                  st_markdown "</div>" true ];
        uncaught := None |},
     {| service := 1%nat;
        calls :=
          [ ContentRequested
              (request_of Stub.parser
                 [ genai.from_bytes "image/jpeg" Local.tiny_png ]) ] |}).
Proof.
  apply (@wrapped_invoice_is_shown nat Local.frame
           (extract_invoice (Stub.answering Local.one_product_reply)
              Stub.parser)
           Local.libraries Local.tiny_png
           [ ("data", PyDict [ ("date", PyStr "01-01-2024");
                               ("products", PyList [ Local.one_product ]) ]) ]
           [ ("date", PyStr "01-01-2024");
             ("products", PyList [ Local.one_product ]) ]
           Stub.boot
           {| service := 1%nat;
              calls :=
                [ ContentRequested
                    (request_of Stub.parser
                       [ genai.from_bytes "image/jpeg" Local.tiny_png ]) ] |});
    vm_compute; reflexivity.
Defined.

Lemma data_that_is_no_object_witness :
  on_upload
    (Local.desktop
       (extract_invoice (Stub.answering Local.null_data_reply) Stub.parser)
       Local.libraries)
    (Some Local.upload) Stub.boot
  = ({| above := [];
        col1 := [ st_markdown section_open true;
                  st_subheader "Invoice Details" ];
        col2 := [];
        uncaught :=
          Some (OtherException "AttributeError"
                  "'NoneType' object has no attribute 'get'") |},
     Stub.served_once).
Proof.
  apply (@data_that_is_no_object_ends_the_script nat Local.frame
           (extract_invoice (Stub.answering Local.null_data_reply)
              Stub.parser)
           Local.libraries Local.upload [ ("data", PyNone) ] PyNone
           Stub.boot Stub.served_once).
  - reflexivity.
  - reflexivity.
  - reflexivity.
  - discriminate.
Defined.

Lemma body_that_is_no_object_witness :
  status (fst (post_multiple_invoice
                 (extract_invoice (Stub.answering "[1]") Stub.parser)
                 (payload
                    (Local.desktop
                       (extract_invoice (Stub.answering "[1]") Stub.parser)
                       Local.libraries)
                    Local.upload)
                 Stub.boot)) = 200
  /\ on_upload
       (Local.desktop (extract_invoice (Stub.answering "[1]") Stub.parser)
          Local.libraries)
       (Some Local.upload) Stub.boot
     = ({| above :=
             [ st_error
                 "Error during processing: 'list' object has no attribute 'get'" ];
           col1 := []; col2 := []; uncaught := None |},
        Stub.served_once).
Proof.
  apply (@body_that_is_no_object_shows_an_error nat Local.frame
           (extract_invoice (Stub.answering "[1]") Stub.parser)
           Local.libraries Local.upload (PyList [ PyInt 1 ])
           Stub.boot Stub.served_once).
  - reflexivity.
  - reflexivity.
  - reflexivity.
  - discriminate.
Defined.

(** ** Empty inputs *)

Lemma post_multiple_invoice_state {W : Type}
    (parser_extract_invoice : list string -> M W value)
    (request : ImagesRequest) (b64 : string) (st : state W) :
  b64_image_of (image request) = Returned b64 ->
  snd (post_multiple_invoice parser_extract_invoice request st)
  = snd (parser_extract_invoice [ b64 ] st).
Proof.
  intros Hb. unfold post_multiple_invoice.
  rewrite (process_invoice_cases _ request st Hb).
  destruct (parser_extract_invoice [ b64 ] st) as [[v|e] st'];
    [|reflexivity].
  destruct (truthy v); reflexivity.
Qed.

(** X21. [extract_invoice] does not refuse an empty list of images: it
    sends one request, whose only part is the empty user prompt. *)
Theorem no_image_still_asks_the_model :
  forall (W : Type) (env : Environment W) (self : InvoiceParser)
         (st : state W),
    calls (snd (extract_invoice env self [] st))
    = ContentRequested
        {| genai.model := model self;
           genai.contents :=
             [ {| genai.role := "user";
                  genai.parts := [ genai.from_text EmptyString ] |} ];
           genai.config := generate_content_config |}
      :: calls st.
Proof.
  intros W env self st.
  exact (extract_invoice_request_sent env self [] st eq_refl).
Qed.

(** X22. The endpoint does not refuse an empty image either: for a body
    that is empty, or that ends with its last comma (a data URI without
    payload), the adapter is given the empty string, and when the decoder
    accepts it the request sent to the service holds an image of no
    bytes. *)
Theorem empty_image_still_asks_the_model :
  forall (W : Type) (env : Environment W) (self : InvoiceParser)
         (pre : string) (st : state W),
    base64_b64decode env EmptyString = Returned [] ->
    b64_image_of EmptyString = Returned EmptyString
    /\ b64_image_of (pre ++ ",") = Returned EmptyString
    /\ calls (snd (post_multiple_invoice (extract_invoice env self)
                     {| image := pre ++ "," |} st))
       = ContentRequested
           (request_of self [ genai.from_bytes "image/jpeg" [] ])
         :: calls st
    /\ calls (snd (post_multiple_invoice (extract_invoice env self)
                     {| image := EmptyString |} st))
       = ContentRequested
           (request_of self [ genai.from_bytes "image/jpeg" [] ])
         :: calls st.
Proof.
  intros W env self pre st Hd.
  assert (Hpre : b64_image_of (pre ++ ",") = Returned EmptyString)
    by exact (b64_image_of_payload pre EmptyString eq_refl).
  assert (Hparts : decode_images env [ EmptyString ]
                   = Returned [ genai.from_bytes "image/jpeg" [] ]).
  { unfold decode_images. simpl. now rewrite Hd. }
  split; [reflexivity|]. split; [exact Hpre|]. split.
  - rewrite (post_multiple_invoice_state _ {| image := pre ++ "," |} st Hpre).
    exact (extract_invoice_request_sent env self _ st Hparts).
  - rewrite (post_multiple_invoice_state _ {| image := EmptyString |} st
               eq_refl).
    exact (extract_invoice_request_sent env self _ st Hparts).
Qed.

Lemma empty_image_witness :
  calls (snd (post_multiple_invoice
                (extract_invoice (Stub.answering Stub.wrapped_reply)
                   Stub.parser)
                {| image := "data:image/jpeg;base64," |} Stub.boot))
  = [ ContentRequested
        (request_of Stub.parser [ genai.from_bytes "image/jpeg" [] ]) ].
Proof.
  apply (@empty_image_still_asks_the_model nat
           (Stub.answering Stub.wrapped_reply) Stub.parser
           "data:image/jpeg;base64" Stub.boot).
  reflexivity.
Defined.

(** Without a connection the first call keeps [None], and the second
    returns it without asking again. *)
Example failed_animation_is_kept :
  load_lottie_url (@Local.libraries nat) lottie_url [] Stub.boot
  = (Returned PyNone, [ (lottie_url, PyNone) ], Stub.boot)
  /\ header (@Local.libraries nat) [ (lottie_url, PyNone) ] Stub.served_once
     = (Returned [], [ (lottie_url, PyNone) ], Stub.served_once).
Proof. split; reflexivity. Qed.
